(** * Locating the XGBoost shared library: a model of [xgboost/libpath.py]

    [find_lib_path] builds an ordered list of candidate paths from the
    package directory, [sys.base_prefix], the [XGBOOST_LIBRARY_PATH]
    variable and the platform identifiers, keeps the candidates that are
    regular files, and raises [XGBoostLibraryNotFound] when none is left
    (unless [XGBOOST_BUILD_DOC] is truthy).

    The function reads ambient process state only; here that state is the
    record [process], and the function is a total function of it returning
    either the raised exception or the returned list.

    A Python [str] is a [string] with one [ascii] per character, which
    covers the characters below 256. *)

From Stdlib Require Import Ascii String List Bool Arith Lia.
From stdpp Require Import base decidable option list strings gmap.

Import ListNotations.
Local Open Scope string_scope.
Local Open Scope list_scope.

(** ** Python [str] operations used by the code *)

Module PyStr.

(** [s[:n]] *)
Fixpoint slice_to (n : nat) (s : string) : string :=
  match n, s with
  | S n', String c s' => String c (slice_to n' s')
  | _, _ => ""
  end.

(** [s[n:]] *)
Fixpoint slice_from (n : nat) (s : string) : string :=
  match n, s with
  | S n', String _ s' => slice_from n' s'
  | _, _ => s
  end.

(** [s[i:j]] for [i <= j] *)
Definition slice (i j : nat) (s : string) : string :=
  slice_to (j - i) (slice_from i s).

(** [s[-1:]] *)
Fixpoint last1 (s : string) : string :=
  match s with
  | "" => ""
  | String c "" => String c ""
  | String _ s' => last1 s'
  end.

(** [bool(s)]: a string is truthy when it is not empty. *)
Definition truthy (s : string) : bool :=
  match s with "" => false | String _ _ => true end.

(** [s.startswith(pre)] *)
Definition startswith (s pre : string) : bool := String.prefix pre s.

(** [s.startswith((p1, ..., pn))] *)
Definition startswith_any (s : string) (pres : list string) : bool :=
  existsb (startswith s) pres.

(** [s.endswith(suf)] *)
Definition endswith (s suf : string) : bool :=
  String.prefix (String.rev suf) (String.rev s).

(** [c in chars] for a one-character string [c] *)
Definition char_in (c chars : string) : bool :=
  match c with
  | String a "" => existsb (Ascii.eqb a) (list_ascii_of_string chars)
  | _ => false
  end.

Fixpoint map_chars (f : ascii -> ascii) (s : string) : string :=
  match s with
  | "" => ""
  | String c s' => String (f c) (map_chars f s')
  end.

(** [s.replace(a, b)] for one-character [a] and [b] *)
Definition replace_char (a b : ascii) (s : string) : string :=
  map_chars (fun c => if Ascii.eqb c a then b else c) s.

Definition upper_ascii (c : ascii) : ascii :=
  let n := nat_of_ascii c in
  if Nat.leb 97 n && Nat.leb n 122 then ascii_of_nat (n - 32) else c.

Definition lower_ascii (c : ascii) : ascii :=
  let n := nat_of_ascii c in
  if Nat.leb 65 n && Nat.leb n 90 then ascii_of_nat (n + 32) else c.

(** [s.upper()] and [s.lower()], on the ASCII letters *)
Definition upper : string -> string := map_chars upper_ascii.
Definition lower : string -> string := map_chars lower_ascii.

(** [s.find(sub, start)]; [None] stands for [-1]. *)
Definition find (s sub : string) (start : nat) : option nat :=
  String.index start sub s.

(** [sep.join(parts)] *)
Definition join (sep : string) (parts : list string) : string :=
  String.concat sep parts.

(** The one-character string holding a line feed, Python's ["\n"]. *)
Definition nl : string := String "010"%char "".

End PyStr.

(** ** [os.path.join] of the two path modules

    [os.path] is [posixpath] or [ntpath] depending on the interpreter
    build.  Both are transcribed for [str] arguments from CPython 3.11
    ([Lib/posixpath.py], [Lib/ntpath.py]). *)

Module posixpath.
Import PyStr.

Definition sep : string := "/".
Definition pardir : string := "..".

(** One iteration of the loop [for b in p] of [join]. *)
Definition join_step (path b : string) : string :=
  if startswith b sep then b
  else if negb (truthy path) || endswith path sep then path +:+ b
  else path +:+ sep +:+ b.

Definition join (a : string) (p : list string) : string :=
  fold_left join_step p a.

End posixpath.

Module ntpath.
Import PyStr.

Definition sep : string := "\".
Definition altsep : string := "/".
Definition seps : string := "\/".
Definition colon : string := ":".
Definition pardir : string := "..".
Definition unc_prefix : string := "\\?\UNC\".

Definition splitdrive (p : string) : string * string :=
  if Nat.leb 2 (String.length p) then
    let normp := replace_char "/"%char "\"%char p in
    if String.eqb (slice 0 2 normp) (sep +:+ sep) then
      let start :=
        if String.eqb (upper (slice_to 8 normp)) unc_prefix then 8 else 2 in
      match find normp sep start with
      | None => (p, "")
      | Some index =>
          match find normp sep (index + 1) with
          | None => (p, "")
          | Some index2 => (slice_to index2 p, slice_from index2 p)
          end
      end
    else if String.eqb (slice 1 2 normp) colon then
      (slice_to 2 p, slice_from 2 p)
    else ("", p)
  else ("", p).

(** "Second path is relative to the first": the tail of the loop body. *)
Definition append_relative (result_path p_path : string) : string :=
  (if truthy result_path && negb (char_in (last1 result_path) seps)
   then result_path +:+ sep else result_path) +:+ p_path.

(** One iteration of the loop [for p in paths] of [join], on the pair
    [(result_drive, result_path)]. *)
Definition join_step (acc : string * string) (p : string)
  : string * string :=
  let '(result_drive, result_path) := acc in
  let '(p_drive, p_path) := splitdrive p in
  if truthy p_path && char_in (slice 0 1 p_path) seps then
    ((if truthy p_drive || negb (truthy result_drive)
      then p_drive else result_drive), p_path)
  else if truthy p_drive && negb (String.eqb p_drive result_drive) then
    if negb (String.eqb (lower p_drive) (lower result_drive)) then
      (p_drive, p_path)
    else
      (p_drive, append_relative result_path p_path)
  else
    (result_drive, append_relative result_path p_path).

Definition join (path : string) (paths : list string) : string :=
  let '(result_drive, result_path) :=
    fold_left join_step paths (splitdrive path) in
  if truthy result_path && negb (char_in (slice 0 1 result_path) seps)
     && truthy result_drive && negb (String.eqb (last1 result_drive) colon)
  then result_drive +:+ sep +:+ result_path
  else result_drive +:+ result_path.

End ntpath.

(** ** The process state read by [find_lib_path] *)

(** Which module [os.path] is. *)
Inductive path_module := Posix | Nt.

(** What [os.stat] reports about an existing path, symbolic links followed:
    a regular file ([S_ISREG]), a directory, or anything else. *)
Inductive file_type := S_IFREG | S_IFDIR | S_IFOTHER.

Record process := {
  os_path : path_module;
  (** [sys.platform] *)
  sys_platform : string;
  (** [platform.system()] *)
  platform_system : string;
  (** [sys.base_prefix] *)
  sys_base_prefix : string;
  (** [os.path.dirname(os.path.abspath(os.path.expanduser(__file__)))] *)
  package_dir : string;
  (** [os.environ] *)
  environ : gmap string string;
  (** [os.stat]; [None] when it raises [OSError]. *)
  os_stat : string -> option file_type;
}.

Definition os_path_join (w : process) (a : string) (p : list string) : string :=
  match os_path w with
  | Posix => posixpath.join a p
  | Nt => ntpath.join a p
  end.

(** [os.path.pardir] is [".."] in both modules. *)
Definition os_path_pardir (w : process) : string :=
  match os_path w with
  | Posix => posixpath.pardir
  | Nt => ntpath.pardir
  end.

Definition os_path_exists (w : process) (p : string) : bool :=
  match os_stat w p with
  | Some _ => true
  | None => false
  end.

Definition os_path_isfile (w : process) (p : string) : bool :=
  match os_stat w p with
  | Some S_IFREG => true
  | _ => false
  end.

(** ** [libpath.py] *)

Inductive exn := XGBoostLibraryNotFound (msg : string).

(** What a call does: it returns a value or raises. *)
Inductive outcome (A : Type) :=
| Return (a : A)
| Raise (e : exn).
Arguments Return {A} a.
Arguments Raise {A} e.

Definition curr_path (w : process) : string := package_dir w.

(** [dll_path] as first assigned. *)
Definition builtin_dirs (w : process) : list string :=
  [ os_path_join w (curr_path w) ["lib"];
    os_path_join w (curr_path w) [os_path_pardir w; os_path_pardir w; "lib"];
    os_path_join w (sys_base_prefix w) ["lib"] ].

(** [if custom_xgboost_path is not None: dll_path.extend([...])] *)
Definition extend_custom (w : process) (dll_path : list string) : list string :=
  match environ w !! "XGBOOST_LIBRARY_PATH" with
  | Some custom_xgboost_path =>
      dll_path ++ [os_path_join w custom_xgboost_path ["lib"]]
  | None => dll_path
  end.

(** The list the [win32] branch extends [dll_path] with. *)
Definition windows_dirs (w : process) : list string :=
  [ os_path_join w (sys_base_prefix w) ["bin"];
    os_path_join w (sys_base_prefix w) ["Library"];
    os_path_join w (sys_base_prefix w) ["Library"; "bin"];
    os_path_join w (sys_base_prefix w) ["Library"; "lib"];
    os_path_join w (sys_base_prefix w) ["Library"; "mingw-w64"];
    os_path_join w (sys_base_prefix w) ["Library"; "mingw-w64"; "bin"];
    os_path_join w (sys_base_prefix w) ["Library"; "mingw-w64"; "lib"] ].

(** [[os.path.join(p, name) for p in dll_path]] *)
Definition with_name (w : process) (name : string) (dll_path : list string)
  : list string :=
  map (fun p => os_path_join w p [name]) dll_path.

(** The [if sys.platform == ... elif ...] chain. *)
Definition name_by_platform (w : process) (dll_path : list string)
  : list string :=
  if String.eqb (sys_platform w) "win32" then
    with_name w "xgboost.dll" (dll_path ++ windows_dirs w)
  else if PyStr.startswith_any (sys_platform w)
            ["linux"; "freebsd"; "emscripten"] then
    with_name w "libxgboost.so" dll_path
  else if String.eqb (sys_platform w) "darwin" then
    with_name w "libxgboost.dylib" dll_path
  else if String.eqb (sys_platform w) "cygwin" then
    with_name w "cygxgboost.dll" dll_path
  else dll_path.

(** [if platform.system() == "OS400": ...] *)
Definition name_os400 (w : process) (dll_path : list string) : list string :=
  if String.eqb (platform_system w) "OS400" then
    with_name w "libxgboost.so" dll_path
  else dll_path.

(** [dll_path] when the filter and the message read it. *)
Definition dll_path (w : process) : list string :=
  name_os400 w (name_by_platform w (extend_custom w (builtin_dirs w))).

Definition lib_path (w : process) : list string :=
  List.filter (fun p => os_path_exists w p && os_path_isfile w p) (dll_path w).

(** [os.environ.get("XGBOOST_BUILD_DOC", False)], as a condition. *)
Definition build_doc (w : process) : bool :=
  match environ w !! "XGBOOST_BUILD_DOC" with
  | Some v => PyStr.truthy v
  | None => false
  end.

Definition link : string :=
  "https://xgboost.readthedocs.io/en/stable/install.html".

Definition msg (w : process) : string :=
  "Cannot find XGBoost Library in the candidate path.  "
  +:+ ("List of candidates:" +:+ PyStr.nl +:+ "- ")
  +:+ PyStr.join (PyStr.nl +:+ "- ") (dll_path w)
  +:+ (PyStr.nl +:+ "XGBoost Python package path: ")
  +:+ curr_path w
  +:+ (PyStr.nl +:+ "sys.base_prefix: ")
  +:+ sys_base_prefix w
  +:+ (PyStr.nl +:+ "See: ")
  +:+ link
  +:+ " for installing XGBoost.".

Definition find_lib_path (w : process) : outcome (list string) :=
  if negb (match lib_path w with [] => false | _ :: _ => true end)
     && negb (build_doc w)
  then Raise (XGBoostLibraryNotFound (msg w))
  else Return (lib_path w).

(** ** Sequential calls

    The function writes nothing: a call hands the process state on as it
    found it. *)

Definition call (w : process) : outcome (list string) * process :=
  (find_lib_path w, w).

Definition call_twice (w : process)
  : outcome (list string) * outcome (list string) :=
  let '(r1, w1) := call w in
  let '(r2, _) := call w1 in
  (r1, r2).

(** ** Vocabulary of the statements *)


Definition is_regular_file (w : process) (p : string) : Prop :=
  os_stat w p = Some S_IFREG.

#[global] Instance file_type_eq_dec : EqDecision file_type.
Proof. solve_decision. Defined.

#[global] Instance is_regular_file_dec w p : Decision (is_regular_file w p).
Proof. unfold is_regular_file. apply _. Defined.

(** The directory the override contributes, if any. *)
Definition custom_dirs (w : process) : list string :=
  match environ w !! "XGBOOST_LIBRARY_PATH" with
  | Some c => [os_path_join w c ["lib"]]
  | None => []
  end.

(** The directories the platform contributes. *)
Definition platform_dirs (w : process) : list string :=
  if String.eqb (sys_platform w) "win32" then windows_dirs w else [].

(** All base directories, in search order. *)
Definition search_dirs (w : process) : list string :=
  builtin_dirs w ++ custom_dirs w ++ platform_dirs w.

(** No branch of the platform chain is taken. *)
Definition unlisted_platform (w : process) : Prop :=
  sys_platform w <> "win32"
  /\ PyStr.startswith_any (sys_platform w) ["linux"; "freebsd"; "emscripten"]
     = false
  /\ sys_platform w <> "darwin"
  /\ sys_platform w <> "cygwin".

(** The candidate built from one base directory: the file name of the
    platform chain, then the one of the OS400 test. *)
Definition candidate_of (w : process) (d : string) : string :=
  let p :=
    if String.eqb (sys_platform w) "win32" then
      os_path_join w d ["xgboost.dll"]
    else if PyStr.startswith_any (sys_platform w)
              ["linux"; "freebsd"; "emscripten"] then
      os_path_join w d ["libxgboost.so"]
    else if String.eqb (sys_platform w) "darwin" then
      os_path_join w d ["libxgboost.dylib"]
    else if String.eqb (sys_platform w) "cygwin" then
      os_path_join w d ["cygxgboost.dll"]
    else d in
  if String.eqb (platform_system w) "OS400" then
    os_path_join w p ["libxgboost.so"]
  else p.

(** A name with no drive and no leading separator, such as the library
    file names. *)
Definition plain_name (name : string) : Prop :=
  PyStr.startswith name posixpath.sep = false
  /\ ntpath.splitdrive name = ("", name)
  /\ PyStr.char_in (PyStr.slice 0 1 name) ntpath.seps = false.

(** The process with [XGBOOST_LIBRARY_PATH] removed from its environment. *)
Definition unset_custom (w : process) : process :=
  {| os_path := os_path w;
     sys_platform := sys_platform w;
     platform_system := platform_system w;
     sys_base_prefix := sys_base_prefix w;
     package_dir := package_dir w;
     environ := delete "XGBOOST_LIBRARY_PATH" (environ w);
     os_stat := os_stat w |}.

(** Two process states that agree on everything [find_lib_path] reads. *)
Record same_inputs (w1 w2 : process) : Prop := {
  same_os_path : os_path w1 = os_path w2;
  same_platform : sys_platform w1 = sys_platform w2;
  same_system : platform_system w1 = platform_system w2;
  same_prefix : sys_base_prefix w1 = sys_base_prefix w2;
  same_dir : package_dir w1 = package_dir w2;
  same_custom :
    environ w1 !! "XGBOOST_LIBRARY_PATH" = environ w2 !! "XGBOOST_LIBRARY_PATH";
  same_build_doc :
    environ w1 !! "XGBOOST_BUILD_DOC" = environ w2 !! "XGBOOST_BUILD_DOC";
  same_stat : forall p, In p (dll_path w1) -> os_stat w1 p = os_stat w2 p;
}.

(** *** Statements as the specification words them, where the code differs *)

Module Claimed.

(** The Windows extras as listed: the prefix itself comes first. *)
Definition windows_dirs (w : process) : list string :=
  [ sys_base_prefix w;
    os_path_join w (sys_base_prefix w) ["Library"];
    os_path_join w (sys_base_prefix w) ["Library"; "bin"];
    os_path_join w (sys_base_prefix w) ["Library"; "lib"];
    os_path_join w (sys_base_prefix w) ["Library"; "mingw-w64"];
    os_path_join w (sys_base_prefix w) ["Library"; "mingw-w64"; "bin"];
    os_path_join w (sys_base_prefix w) ["Library"; "mingw-w64"; "lib"] ].

(** On Windows the base directories end with the listed extras. *)
Definition windows_extras (w : process) : Prop :=
  sys_platform w = "win32" ->
  name_by_platform w (extend_custom w (builtin_dirs w))
  = with_name w "xgboost.dll"
      (extend_custom w (builtin_dirs w) ++ windows_dirs w).

(** On an unlisted platform nothing is ever found. *)
Definition unlisted_finds_nothing (w : process) : Prop :=
  unlisted_platform w -> platform_system w <> "OS400" ->
  find_lib_path w = Return [] \/ exists e, find_lib_path w = Raise e.

End Claimed.

(** ** Sample process states *)

Module Sample.

Definition no_files : string -> option file_type := fun _ => None.

(** Linux, with the override set and the library only under it; a
    directory named like the library sits under the base prefix. *)
Definition linux : process :=
  {| os_path := Posix;
     sys_platform := "linux";
     platform_system := "Linux";
     sys_base_prefix := "/usr";
     package_dir := "/pkg/xgboost";
     environ := {[ "XGBOOST_LIBRARY_PATH" := "/opt/custom";
                   "HOME" := "/root" ]};
     os_stat := fun p =>
       if String.eqb p "/opt/custom/lib/libxgboost.so" then Some S_IFREG
       else if String.eqb p "/usr/lib/libxgboost.so" then Some S_IFDIR
       else if String.eqb p "/usr/lib" then Some S_IFDIR
       else None |}.

(** The same machine seen later: unrelated variables and files differ. *)
Definition linux_later : process :=
  {| os_path := Posix;
     sys_platform := "linux";
     platform_system := "Linux";
     sys_base_prefix := "/usr";
     package_dir := "/pkg/xgboost";
     environ := {[ "XGBOOST_LIBRARY_PATH" := "/opt/custom";
                   "HOME" := "/home/u"; "LANG" := "C" ]};
     os_stat := fun p =>
       if String.eqb p "/opt/custom/lib/libxgboost.so" then Some S_IFREG
       else if String.eqb p "/usr/lib/libxgboost.so" then Some S_IFDIR
       else if String.eqb p "/tmp/scratch" then Some S_IFREG
       else None |}.

(** Linux with nothing installed. *)
Definition linux_bare : process :=
  {| os_path := Posix;
     sys_platform := "linux";
     platform_system := "Linux";
     sys_base_prefix := "/usr";
     package_dir := "/pkg/xgboost";
     environ := ∅;
     os_stat := no_files |}.

(** Linux with nothing installed, building the documentation. *)
Definition linux_doc : process :=
  {| os_path := Posix;
     sys_platform := "linux";
     platform_system := "Linux";
     sys_base_prefix := "/usr";
     package_dir := "/pkg/xgboost";
     environ := {[ "XGBOOST_BUILD_DOC" := "1" ]};
     os_stat := no_files |}.

(** Linux with the override set to the empty string. *)
Definition linux_empty_override : process :=
  {| os_path := Posix;
     sys_platform := "linux";
     platform_system := "Linux";
     sys_base_prefix := "/usr";
     package_dir := "/pkg/xgboost";
     environ := {[ "XGBOOST_LIBRARY_PATH" := "" ]};
     os_stat := no_files |}.

(** Windows with a Conda layout. *)
Definition windows : process :=
  {| os_path := Nt;
     sys_platform := "win32";
     platform_system := "Windows";
     sys_base_prefix := "C:\conda";
     package_dir := "C:\conda\Lib\site-packages\xgboost";
     environ := ∅;
     os_stat := fun p =>
       if String.eqb p "C:\conda\Library\bin\xgboost.dll" then Some S_IFREG
       else None |}.

(** macOS. *)
Definition darwin : process :=
  {| os_path := Posix;
     sys_platform := "darwin";
     platform_system := "Darwin";
     sys_base_prefix := "/usr/local";
     package_dir := "/pkg/xgboost";
     environ := ∅;
     os_stat := no_files |}.

(** Cygwin. *)
Definition cygwin : process :=
  {| os_path := Posix;
     sys_platform := "cygwin";
     platform_system := "CYGWIN_NT-10.0";
     sys_base_prefix := "/usr";
     package_dir := "/pkg/xgboost";
     environ := ∅;
     os_stat := no_files |}.

(** IBM i, where [sys.platform] is none of the listed ones. *)
Definition os400 : process :=
  {| os_path := Posix;
     sys_platform := "os400";
     platform_system := "OS400";
     sys_base_prefix := "/QOpenSys/pkgs";
     package_dir := "/pkg/xgboost";
     environ := ∅;
     os_stat := no_files |}.

(** AIX, an unlisted platform, with a regular file named [lib] in the
    package directory. *)
Definition aix_lib_file : process :=
  {| os_path := Posix;
     sys_platform := "aix";
     platform_system := "AIX";
     sys_base_prefix := "/opt/freeware";
     package_dir := "/pkg/xgboost";
     environ := ∅;
     os_stat := fun p =>
       if String.eqb p "/pkg/xgboost/lib" then Some S_IFREG else None |}.

(** AIX with the library installed in the usual directories. *)
Definition aix : process :=
  {| os_path := Posix;
     sys_platform := "aix";
     platform_system := "AIX";
     sys_base_prefix := "/opt/freeware";
     package_dir := "/pkg/xgboost";
     environ := ∅;
     os_stat := fun p =>
       if String.eqb p "/pkg/xgboost/lib" then Some S_IFDIR
       else if String.eqb p "/pkg/xgboost/lib/libxgboost.so" then Some S_IFREG
       else if String.eqb p "/opt/freeware/lib" then Some S_IFDIR
       else if String.eqb p "/opt/freeware/lib/libxgboost.so" then Some S_IFREG
       else None |}.

End Sample.

(** ** The last component of a path *)

(** The characters after which a file name starts: the separator of
    [posixpath]; the two separators and the drive colon of [ntpath]. *)
Definition component_breaks (w : process) : string :=
  match os_path w with
  | Posix => "/"
  | Nt => "\/:"
  end.

(** [p] has the file name [name]: it is [name] alone, or [name] right
    after a separator (or after the colon of a drive). *)
Definition has_file_name (w : process) (name p : string) : Prop :=
  exists stem,
    p = stem +:+ name
    /\ (stem = ""
        \/ PyStr.char_in (PyStr.last1 stem) (component_breaks w) = true).

(** ** Further vocabulary *)

(** The file name every candidate ends in, when there is one: the OS400
    test comes last in the code and so decides first here. *)
Definition library_name (w : process) : option string :=
  if String.eqb (platform_system w) "OS400" then Some "libxgboost.so"
  else if String.eqb (sys_platform w) "win32" then Some "xgboost.dll"
  else if PyStr.startswith_any (sys_platform w)
            ["linux"; "freebsd"; "emscripten"] then Some "libxgboost.so"
  else if String.eqb (sys_platform w) "darwin" then Some "libxgboost.dylib"
  else if String.eqb (sys_platform w) "cygwin" then Some "cygxgboost.dll"
  else None.

(** [os.environ[k] = v] done before the call. *)
Definition setenv (k v : string) (w : process) : process :=
  {| os_path := os_path w;
     sys_platform := sys_platform w;
     platform_system := platform_system w;
     sys_base_prefix := sys_base_prefix w;
     package_dir := package_dir w;
     environ := <[k := v]> (environ w);
     os_stat := os_stat w |}.

(** Two process states with the same candidate list: they agree on all
    that the construction of [dll_path] reads.  The files and
    [XGBOOST_BUILD_DOC] may differ. *)
Record same_settings (w1 w2 : process) : Prop := {
  settings_os_path : os_path w1 = os_path w2;
  settings_platform : sys_platform w1 = sys_platform w2;
  settings_system : platform_system w1 = platform_system w2;
  settings_prefix : sys_base_prefix w1 = sys_base_prefix w2;
  settings_dir : package_dir w1 = package_dir w2;
  settings_custom :
    environ w1 !! "XGBOOST_LIBRARY_PATH" = environ w2 !! "XGBOOST_LIBRARY_PATH";
}.

(** How often [p] is in [l]. *)
Definition occurrences (p : string) (l : list string) : nat :=
  count_occ String.string_dec l p.

Module Scenario.

(** Linux with the library under the base prefix only. *)
Definition system_only : process :=
  {| os_path := Posix;
     sys_platform := "linux";
     platform_system := "Linux";
     sys_base_prefix := "/usr";
     package_dir := "/pkg/xgboost";
     environ := ∅;
     os_stat := fun p =>
       if String.eqb p "/usr/lib/libxgboost.so" then Some S_IFREG
       else if String.eqb p "/usr/lib" then Some S_IFDIR
       else None |}.

(** The same machine after the package has got its own copy. *)
Definition installed : process :=
  {| os_path := Posix;
     sys_platform := "linux";
     platform_system := "Linux";
     sys_base_prefix := "/usr";
     package_dir := "/pkg/xgboost";
     environ := {[ "XGBOOST_BUILD_DOC" := "1" ]};
     os_stat := fun p =>
       if String.eqb p "/usr/lib/libxgboost.so" then Some S_IFREG
       else if String.eqb p "/pkg/xgboost/lib/libxgboost.so" then Some S_IFREG
       else if String.eqb p "/usr/lib" then Some S_IFDIR
       else if String.eqb p "/pkg/xgboost/lib" then Some S_IFDIR
       else None |}.

(** A Conda environment whose prefix is also given as the override. *)
Definition conda : process :=
  {| os_path := Posix;
     sys_platform := "linux";
     platform_system := "Linux";
     sys_base_prefix := "/opt/conda";
     package_dir := "/opt/conda/lib/python3.11/site-packages/xgboost";
     environ := {[ "XGBOOST_LIBRARY_PATH" := "/opt/conda" ]};
     os_stat := fun p =>
       if String.eqb p "/opt/conda/lib/libxgboost.so" then Some S_IFREG
       else None |}.

End Scenario.

(** * Properties *)

(** ** Evaluations *)

Example posix_join_1 : posixpath.join "/pkg/xgboost" ["lib"] = "/pkg/xgboost/lib".
Proof. reflexivity. Qed.
Example posix_join_2 :
  posixpath.join "/pkg/xgboost" [".."; ".."; "lib"] = "/pkg/xgboost/../../lib".
Proof. reflexivity. Qed.
Example posix_join_3 : posixpath.join "/opt/" ["lib"] = "/opt/lib".
Proof. reflexivity. Qed.
Example posix_join_4 : posixpath.join "" ["lib"] = "lib".
Proof. reflexivity. Qed.
Example nt_join_1 :
  ntpath.join "C:\Py" ["Library"; "bin"] = "C:\Py\Library\bin".
Proof. reflexivity. Qed.
Example nt_join_2 : ntpath.join "C:" ["lib"] = "C:lib".
Proof. reflexivity. Qed.
Example nt_join_3 : ntpath.join "\\srv\share" ["lib"] = "\\srv\share\lib".
Proof. reflexivity. Qed.
Example nt_join_4 : ntpath.join "" ["lib"] = "lib".
Proof. reflexivity. Qed.
Example nt_join_5 : ntpath.join "C:/Py/" ["lib"] = "C:/Py/lib".
Proof. reflexivity. Qed.

Example find_linux :
  find_lib_path Sample.linux = Return ["/opt/custom/lib/libxgboost.so"].
Proof. vm_compute. reflexivity. Qed.

Example find_windows :
  find_lib_path Sample.windows = Return ["C:\conda\Library\bin\xgboost.dll"].
Proof. vm_compute. reflexivity. Qed.

Example dll_path_windows :
  dll_path Sample.windows =
  [ "C:\conda\Lib\site-packages\xgboost\lib\xgboost.dll";
    "C:\conda\Lib\site-packages\xgboost\..\..\lib\xgboost.dll";
    "C:\conda\lib\xgboost.dll";
    "C:\conda\bin\xgboost.dll";
    "C:\conda\Library\xgboost.dll";
    "C:\conda\Library\bin\xgboost.dll";
    "C:\conda\Library\lib\xgboost.dll";
    "C:\conda\Library\mingw-w64\xgboost.dll";
    "C:\conda\Library\mingw-w64\bin\xgboost.dll";
    "C:\conda\Library\mingw-w64\lib\xgboost.dll" ].
Proof. vm_compute. reflexivity. Qed.

Example msg_linux_bare :
  msg Sample.linux_bare
  = "Cannot find XGBoost Library in the candidate path.  List of candidates:
- /pkg/xgboost/lib/libxgboost.so
- /pkg/xgboost/../../lib/libxgboost.so
- /usr/lib/libxgboost.so
XGBoost Python package path: /pkg/xgboost
sys.base_prefix: /usr
See: https://xgboost.readthedocs.io/en/stable/install.html for installing XGBoost.".
Proof. vm_compute. reflexivity. Qed.

Example find_linux_doc : find_lib_path Sample.linux_doc = Return [].
Proof. vm_compute. reflexivity. Qed.

Example find_linux_bare :
  exists m, find_lib_path Sample.linux_bare = Raise (XGBoostLibraryNotFound m).
Proof. eexists. vm_compute. reflexivity. Qed.

(** ** Strings *)

Section string_facts.

Lemma str_app_cons (x : ascii) (a b : string) :
  String x a +:+ b = String x (a +:+ b).
Proof. reflexivity. Qed.

Lemma str_app_assoc (a b c : string) : (a +:+ b) +:+ c = a +:+ b +:+ c.
Proof.
  induction a as [|x a IH]; [reflexivity |].
  now rewrite !str_app_cons, IH.
Qed.







End string_facts.

(** ** The filter and the two ways out *)

Section outcome_facts.
Variable w : process.

Lemma regular_test (p : string) :
  os_path_exists w p && os_path_isfile w p
  = bool_decide (is_regular_file w p).
Proof.
  unfold os_path_exists, os_path_isfile.
  destruct (os_stat w p) as [[]|] eqn:E; simpl; symmetry;
    [apply bool_decide_eq_true; exact E
    | apply bool_decide_eq_false; unfold is_regular_file; rewrite E;
      discriminate ..].
Qed.

Lemma lib_path_filter :
  lib_path w
  = List.filter (fun p => bool_decide (is_regular_file w p)) (dll_path w).
Proof.
  unfold lib_path. apply List.filter_ext. intros p. apply regular_test.
Qed.

Lemma lib_path_In (p : string) :
  In p (lib_path w) <-> In p (dll_path w) /\ is_regular_file w p.
Proof.
  rewrite lib_path_filter, List.filter_In, bool_decide_eq_true. reflexivity.
Qed.

Lemma lib_path_nil :
  lib_path w = [] <->
  forall p, In p (dll_path w) -> ~ is_regular_file w p.
Proof.
  split.
  - intros Hnil p Hin Hreg.
    assert (In p (lib_path w)) as Hp by (apply lib_path_In; auto).
    rewrite Hnil in Hp. destruct Hp.
  - intros Hnone. destruct (lib_path w) as [|p l] eqn:E; [reflexivity |].
    assert (In p (lib_path w)) as Hp by (rewrite E; left; reflexivity).
    apply lib_path_In in Hp as [Hin Hreg]. destruct (Hnone p Hin Hreg).
Qed.

(** The two ways out of [find_lib_path]. *)
Lemma find_lib_path_cases :
  (lib_path w = [] /\ build_doc w = false
   /\ find_lib_path w = Raise (XGBoostLibraryNotFound (msg w)))
  \/ ((lib_path w <> [] \/ build_doc w = true)
      /\ find_lib_path w = Return (lib_path w)).
Proof.
  unfold find_lib_path.
  destruct (lib_path w) as [|p l]; destruct (build_doc w); simpl.
  - right. split; [right; reflexivity | reflexivity].
  - left. repeat split.
  - right. split; [left; discriminate | reflexivity].
  - right. split; [left; discriminate | reflexivity].
Qed.

Lemma build_doc_true :
  build_doc w = true <->
  exists v, environ w !! "XGBOOST_BUILD_DOC" = Some v /\ v <> "".
Proof.
  unfold build_doc.
  destruct (environ w !! "XGBOOST_BUILD_DOC") as [v|]; split.
  - intros Hv. exists v. split; [reflexivity |]. now destruct v.
  - intros (v' & [= <-] & Hne). destruct v; [now destruct Hne | reflexivity].
  - discriminate.
  - intros (v & [=] & _).
Qed.





End outcome_facts.

(** ** The shape of the candidate list *)

Section candidate_facts.
Variable w : process.

Lemma extend_custom_app (d : list string) :
  extend_custom w d = d ++ custom_dirs w.
Proof.
  unfold extend_custom, custom_dirs.
  destruct (environ w !! "XGBOOST_LIBRARY_PATH");
    [reflexivity | now rewrite app_nil_r].
Qed.

(** No platform identifier is both ["win32"] and one of the prefixed
    families. *)
Lemma startswith_any_not_win32 :
  PyStr.startswith_any (sys_platform w) ["linux"; "freebsd"; "emscripten"]
  = true ->
  String.eqb (sys_platform w) "win32" = false.
Proof.
  intros Hpre. apply String.eqb_neq. intros Heq.
  rewrite Heq in Hpre. discriminate Hpre.
Qed.

Lemma dll_path_map :
  dll_path w = map (candidate_of w) (search_dirs w).
Proof.
  unfold dll_path, search_dirs, name_os400, name_by_platform, platform_dirs,
    candidate_of, with_name.
  rewrite extend_custom_app, <- app_assoc.
  destruct (String.eqb (sys_platform w) "win32");
    [| rewrite app_nil_r;
       destruct (PyStr.startswith_any (sys_platform w) _);
       [| destruct (String.eqb (sys_platform w) "darwin");
          [| destruct (String.eqb (sys_platform w) "cygwin")]]];
    destruct (String.eqb (platform_system w) "OS400");
    rewrite ?map_map, ?map_id; reflexivity.
Qed.

End candidate_facts.

(** ** The claims *)

(** C1: the list [find_lib_path] returns is exactly the candidates that
    are regular files, in candidate order, and the candidates are built
    from the base directories in the fixed order: own-dir/lib,
    own-dir/../../lib, base-prefix/lib, then override/lib when the
    override is set, then the Windows directories on [win32].  Whenever
    some candidate is a regular file, that list is returned. *)
Theorem find_lib_path_existing_candidates_in_order (w : process) :
  dll_path w
  = map (candidate_of w)
      ([ os_path_join w (package_dir w) ["lib"];
         os_path_join w (package_dir w) [".."; ".."; "lib"];
         os_path_join w (sys_base_prefix w) ["lib"] ]
       ++ custom_dirs w ++ platform_dirs w)
  /\ (forall l, find_lib_path w = Return l ->
      l = List.filter (fun p => bool_decide (is_regular_file w p)) (dll_path w)
      /\ forall p, In p l <-> In p (dll_path w) /\ is_regular_file w p)
  /\ ((exists p, In p (dll_path w) /\ is_regular_file w p) ->
      find_lib_path w
      = Return (List.filter (fun p => bool_decide (is_regular_file w p))
                  (dll_path w))).
Proof.
  split; [| split].
  - rewrite dll_path_map. unfold search_dirs, builtin_dirs, curr_path.
    now destruct w as [[] ? ? ? ? ? ?].
  - intros l Hret.
    destruct (find_lib_path_cases w) as [(_ & _ & Hraise) | (_ & Hok)];
      [congruence |].
    assert (l = lib_path w) as -> by congruence.
    split; [apply lib_path_filter | apply lib_path_In].
  - intros (p & Hin & Hreg).
    destruct (find_lib_path_cases w) as [(Hnil & _) | (_ & Hok)].
    + destruct (proj1 (lib_path_nil w) Hnil p Hin Hreg).
    + now rewrite Hok, lib_path_filter.
Qed.

Lemma find_lib_path_existing_candidates_in_order_witness :
  find_lib_path Sample.linux = Return ["/opt/custom/lib/libxgboost.so"]
  /\ ["/opt/custom/lib/libxgboost.so"]
     = List.filter (fun p => bool_decide (is_regular_file Sample.linux p))
         (dll_path Sample.linux).
Proof.
  split; [vm_compute; reflexivity |].
  apply (proj1 (proj2
           (find_lib_path_existing_candidates_in_order Sample.linux))).
  vm_compute. reflexivity.
Defined.



(** ** Joining a plain file name *)

Section join_facts.

Lemma posix_join_plain (p name : string) :
  plain_name name ->
  exists stem, posixpath.join p [name] = stem +:+ name.
Proof.
  intros (Hsep & _). unfold posixpath.join, posixpath.join_step. simpl.
  rewrite Hsep.
  destruct (negb (PyStr.truthy p) || PyStr.endswith p posixpath.sep).
  - now exists p.
  - exists (p +:+ posixpath.sep). now rewrite str_app_assoc.
Qed.

Lemma nt_join_plain (p name : string) :
  plain_name name ->
  exists stem, ntpath.join p [name] = stem +:+ name.
Proof.
  intros (_ & Hsplit & Hchar). unfold ntpath.join. simpl.
  destruct (ntpath.splitdrive p) as [rd rp].
  unfold ntpath.join_step. rewrite Hsplit, Hchar, andb_false_r. simpl.
  unfold ntpath.append_relative.
  set (rp' := if PyStr.truthy rp
                 && negb (PyStr.char_in (PyStr.last1 rp) ntpath.seps)
              then rp +:+ ntpath.sep else rp).
  match goal with |- context [if ?c then _ else _] => destruct c end.
  - exists (rd +:+ ntpath.sep +:+ rp'). now rewrite !str_app_assoc.
  - exists (rd +:+ rp'). now rewrite str_app_assoc.
Qed.

Lemma os_path_join_plain (w : process) (p name : string) :
  plain_name name ->
  exists stem, os_path_join w p [name] = stem +:+ name.
Proof.
  intros Hname. unfold os_path_join.
  destruct (os_path w); [now apply posix_join_plain | now apply nt_join_plain].
Qed.

Lemma plain_libxgboost_so : plain_name "libxgboost.so".
Proof. repeat split. Qed.

Lemma os_path_join_empty_lib (w : process) : os_path_join w "" ["lib"] = "lib".
Proof. unfold os_path_join. now destruct (os_path w). Qed.

End join_facts.

(** C4, as stated, fails: on Windows the first extra directory is not the
    base prefix itself. *)
Lemma windows_extras_counterexample :
  sys_platform Sample.windows = "win32"
  /\ nth_error (dll_path Sample.windows) 3 = Some "C:\conda\bin\xgboost.dll"
  /\ ~ In "C:\conda\xgboost.dll" (dll_path Sample.windows)
  /\ ~ Claimed.windows_extras Sample.windows.
Proof.
  split; [reflexivity |]. split; [vm_compute; reflexivity |]. split.
  - vm_compute. intuition discriminate.
  - intros Hclaim. specialize (Hclaim eq_refl).
    vm_compute in Hclaim. discriminate Hclaim.
Qed.

(** C4, amended: on the Windows family the base directories are extended,
    after the built-in and override directories, by exactly
    [<prefix>/bin], [<prefix>/Library], [<prefix>/Library/bin],
    [<prefix>/Library/lib], [<prefix>/Library/mingw-w64],
    [<prefix>/Library/mingw-w64/bin], [<prefix>/Library/mingw-w64/lib],
    in this order. *)
Theorem windows_dirs_appended (w : process) :
  sys_platform w = "win32" ->
  name_by_platform w (extend_custom w (builtin_dirs w))
  = with_name w "xgboost.dll"
      (builtin_dirs w ++ custom_dirs w
       ++ [ os_path_join w (sys_base_prefix w) ["bin"];
            os_path_join w (sys_base_prefix w) ["Library"];
            os_path_join w (sys_base_prefix w) ["Library"; "bin"];
            os_path_join w (sys_base_prefix w) ["Library"; "lib"];
            os_path_join w (sys_base_prefix w) ["Library"; "mingw-w64"];
            os_path_join w (sys_base_prefix w) ["Library"; "mingw-w64"; "bin"];
            os_path_join w (sys_base_prefix w) ["Library"; "mingw-w64"; "lib"] ]).
Proof.
  intros Hwin. unfold name_by_platform.
  rewrite Hwin, extend_custom_app, <- app_assoc. reflexivity.
Qed.

Lemma windows_dirs_appended_witness :
  name_by_platform Sample.windows
    (extend_custom Sample.windows (builtin_dirs Sample.windows))
  = [ "C:\conda\Lib\site-packages\xgboost\lib\xgboost.dll";
      "C:\conda\Lib\site-packages\xgboost\..\..\lib\xgboost.dll";
      "C:\conda\lib\xgboost.dll";
      "C:\conda\bin\xgboost.dll";
      "C:\conda\Library\xgboost.dll";
      "C:\conda\Library\bin\xgboost.dll";
      "C:\conda\Library\lib\xgboost.dll";
      "C:\conda\Library\mingw-w64\xgboost.dll";
      "C:\conda\Library\mingw-w64\bin\xgboost.dll";
      "C:\conda\Library\mingw-w64\lib\xgboost.dll" ].
Proof.
  rewrite (windows_dirs_appended Sample.windows eq_refl).
  vm_compute. reflexivity.
Defined.

(** C5: the file name joined onto every base directory is fixed by the
    platform family: [xgboost.dll] on [win32], [libxgboost.so] when
    [sys.platform] starts with [linux], [freebsd] or [emscripten],
    [libxgboost.dylib] on [darwin], [cygxgboost.dll] on [cygwin]; unless
    [platform.system()] is ["OS400"], the lists so named are the
    candidates. *)
Theorem file_name_by_platform_family (w : process) :
  (sys_platform w = "win32" ->
   name_by_platform w (extend_custom w (builtin_dirs w))
   = map (fun d => os_path_join w d ["xgboost.dll"]) (search_dirs w))
  /\ (PyStr.startswith_any (sys_platform w) ["linux"; "freebsd"; "emscripten"]
      = true ->
      name_by_platform w (extend_custom w (builtin_dirs w))
      = map (fun d => os_path_join w d ["libxgboost.so"]) (search_dirs w))
  /\ (sys_platform w = "darwin" ->
      name_by_platform w (extend_custom w (builtin_dirs w))
      = map (fun d => os_path_join w d ["libxgboost.dylib"]) (search_dirs w))
  /\ (sys_platform w = "cygwin" ->
      name_by_platform w (extend_custom w (builtin_dirs w))
      = map (fun d => os_path_join w d ["cygxgboost.dll"]) (search_dirs w))
  /\ (platform_system w <> "OS400" ->
      dll_path w = name_by_platform w (extend_custom w (builtin_dirs w))).
Proof.
  unfold search_dirs, platform_dirs, name_by_platform, with_name.
  rewrite extend_custom_app, <- app_assoc.
  repeat split.
  - now intros ->.
  - intros Hpre. rewrite (startswith_any_not_win32 w Hpre), Hpre.
    now rewrite app_nil_r.
  - intros ->. simpl. now rewrite app_nil_r.
  - intros ->. simpl. now rewrite app_nil_r.
  - intros Hsys. unfold dll_path, name_os400.
    apply String.eqb_neq in Hsys. rewrite Hsys, extend_custom_app.
    reflexivity.
Qed.

Lemma file_name_by_platform_family_witness :
  dll_path Sample.linux
  = [ "/pkg/xgboost/lib/libxgboost.so";
      "/pkg/xgboost/../../lib/libxgboost.so";
      "/usr/lib/libxgboost.so";
      "/opt/custom/lib/libxgboost.so" ]
  /\ dll_path Sample.darwin
     = [ "/pkg/xgboost/lib/libxgboost.dylib";
         "/pkg/xgboost/../../lib/libxgboost.dylib";
         "/usr/local/lib/libxgboost.dylib" ]
  /\ dll_path Sample.cygwin
     = [ "/pkg/xgboost/lib/cygxgboost.dll";
         "/pkg/xgboost/../../lib/cygxgboost.dll";
         "/usr/lib/cygxgboost.dll" ].
Proof.
  split; [| split].
  - destruct (file_name_by_platform_family Sample.linux)
      as (_ & Hlinux & _ & _ & Hsys).
    rewrite Hsys by discriminate. rewrite Hlinux by reflexivity.
    vm_compute. reflexivity.
  - destruct (file_name_by_platform_family Sample.darwin)
      as (_ & _ & Hdarwin & _ & Hsys).
    rewrite Hsys by discriminate. rewrite Hdarwin by reflexivity.
    vm_compute. reflexivity.
  - destruct (file_name_by_platform_family Sample.cygwin)
      as (_ & _ & _ & Hcyg & Hsys).
    rewrite Hsys by discriminate. rewrite Hcyg by reflexivity.
    vm_compute. reflexivity.
Defined.

(** ** The override *)

Section override_facts.
Variable w : process.

Lemma custom_dirs_set (c : string) :
  environ w !! "XGBOOST_LIBRARY_PATH" = Some c ->
  custom_dirs w = [os_path_join w c ["lib"]].
Proof. intros Hc. unfold custom_dirs. now rewrite Hc. Qed.

Lemma custom_dirs_unset : custom_dirs (unset_custom w) = [].
Proof. unfold custom_dirs. simpl. now rewrite lookup_delete_eq. Qed.

Lemma dll_path_unset :
  dll_path (unset_custom w)
  = map (candidate_of w) (builtin_dirs w ++ platform_dirs w).
Proof.
  rewrite dll_path_map. unfold search_dirs. rewrite custom_dirs_unset.
  reflexivity.
Qed.

End override_facts.

(** C6: when [XGBOOST_LIBRARY_PATH] is set, [<override>/lib] is appended
    at the end of the base-directory list as it then stands: after the
    three built-in directories and before the Windows directories.  The
    built-in candidates keep their places: the candidate list is the one
    of the same process without the override, with the override's
    candidate inserted after the third. *)
Theorem override_is_appended (w : process) (c : string) :
  environ w !! "XGBOOST_LIBRARY_PATH" = Some c ->
  (forall d, extend_custom w d = d ++ [os_path_join w c ["lib"]])
  /\ dll_path w
     = map (candidate_of w) (builtin_dirs w)
       ++ [candidate_of w (os_path_join w c ["lib"])]
       ++ map (candidate_of w) (platform_dirs w)
  /\ dll_path (unset_custom w)
     = map (candidate_of w) (builtin_dirs w)
       ++ map (candidate_of w) (platform_dirs w).
Proof.
  intros Hc. split; [| split].
  - intros d. now rewrite extend_custom_app, (custom_dirs_set w c Hc).
  - rewrite dll_path_map. unfold search_dirs.
    now rewrite (custom_dirs_set w c Hc), !map_app.
  - now rewrite dll_path_unset, map_app.
Qed.

Lemma override_is_appended_witness :
  dll_path Sample.linux
  = [ "/pkg/xgboost/lib/libxgboost.so";
      "/pkg/xgboost/../../lib/libxgboost.so";
      "/usr/lib/libxgboost.so" ]
    ++ ["/opt/custom/lib/libxgboost.so"] ++ []
  /\ dll_path (unset_custom Sample.linux)
     = [ "/pkg/xgboost/lib/libxgboost.so";
         "/pkg/xgboost/../../lib/libxgboost.so";
         "/usr/lib/libxgboost.so" ] ++ [].
Proof.
  assert (environ Sample.linux !! "XGBOOST_LIBRARY_PATH" = Some "/opt/custom")
    as Hc by (vm_compute; reflexivity).
  destruct (override_is_appended Sample.linux "/opt/custom" Hc)
    as (_ & Hset & Hunset).
  split; [rewrite Hset | rewrite Hunset]; vm_compute; reflexivity.
Defined.

(** C7: a candidate that exists without being a regular file, such as a
    directory named like the library, is not in the returned list. *)
Theorem non_regular_candidate_excluded
    (w : process) (p : string) (k : file_type) (l : list string) :
  os_stat w p = Some k -> k <> S_IFREG ->
  find_lib_path w = Return l ->
  ~ In p l.
Proof.
  intros Hstat Hk Hret Hin.
  destruct (find_lib_path_cases w) as [(_ & _ & Hraise) | (_ & Hok)];
    [congruence |].
  assert (l = lib_path w) as -> by congruence.
  apply lib_path_In in Hin as [_ Hreg].
  unfold is_regular_file in Hreg. congruence.
Qed.

Lemma non_regular_candidate_excluded_witness :
  In "/usr/lib/libxgboost.so" (dll_path Sample.linux)
  /\ ~ In "/usr/lib/libxgboost.so" ["/opt/custom/lib/libxgboost.so"].
Proof.
  split; [vm_compute; tauto |].
  apply (non_regular_candidate_excluded Sample.linux _ S_IFDIR).
  - reflexivity.
  - discriminate.
  - vm_compute. reflexivity.
Defined.

(** ** What the result depends on *)

Section same_inputs_facts.
Variables w1 w2 : process.
Hypothesis Hsame : same_inputs w1 w2.

Lemma dll_path_same : dll_path w1 = dll_path w2.
Proof.
  destruct Hsame as [Hpath Hplat Hsys Hpre Hdir Hcustom _ _].
  unfold dll_path, name_os400, name_by_platform, with_name, windows_dirs,
    extend_custom, builtin_dirs, curr_path, os_path_pardir, os_path_join.
  rewrite Hpath, Hplat, Hsys, Hpre, Hdir, Hcustom. reflexivity.
Qed.

Lemma lib_path_same : lib_path w1 = lib_path w2.
Proof.
  unfold lib_path. rewrite <- dll_path_same.
  apply List.filter_ext_in. intros p Hin.
  unfold os_path_exists, os_path_isfile.
  now rewrite (same_stat _ _ Hsame p Hin).
Qed.

Lemma msg_same : msg w1 = msg w2.
Proof.
  unfold msg, curr_path.
  now rewrite dll_path_same, (same_dir _ _ Hsame), (same_prefix _ _ Hsame).
Qed.

Lemma build_doc_same : build_doc w1 = build_doc w2.
Proof. unfold build_doc. now rewrite (same_build_doc _ _ Hsame). Qed.

Lemma find_lib_path_same : find_lib_path w1 = find_lib_path w2.
Proof.
  unfold find_lib_path.
  now rewrite lib_path_same, msg_same, build_doc_same.
Qed.

End same_inputs_facts.

(** C8: [find_lib_path] is deterministic and changes nothing: two calls
    in sequence give the same outcome, and any two process states that
    agree on the platform identifiers, the two variables consulted and
    the files at the candidate paths give the same returned list or the
    same raised error. *)
Theorem find_lib_path_deterministic (w1 w2 : process) :
  (let '(r1, r2) := call_twice w1 in r1 = r2)
  /\ snd (call w1) = w1
  /\ (same_inputs w1 w2 -> find_lib_path w1 = find_lib_path w2).
Proof.
  split; [reflexivity | split; [reflexivity |]].
  apply find_lib_path_same.
Qed.

Lemma find_lib_path_deterministic_witness :
  find_lib_path Sample.linux = find_lib_path Sample.linux_later.
Proof.
  apply (proj2 (proj2
           (find_lib_path_deterministic Sample.linux Sample.linux_later))).
  split; try (vm_compute; reflexivity).
  intros p Hin. vm_compute in Hin.
  destruct Hin as [<- | [<- | [<- | [<- | []]]]]; vm_compute; reflexivity.
Defined.

(** C9, as stated, fails: on an unlisted platform the candidates are the
    bare base-directory paths, and one of them can be a regular file, in
    which case it is returned. *)
Lemma unlisted_finds_nothing_counterexample :
  unlisted_platform Sample.aix_lib_file
  /\ platform_system Sample.aix_lib_file <> "OS400"
  /\ os_stat Sample.aix_lib_file "/pkg/xgboost/lib" = Some S_IFREG
  /\ find_lib_path Sample.aix_lib_file = Return ["/pkg/xgboost/lib"]
  /\ ~ Claimed.unlisted_finds_nothing Sample.aix_lib_file.
Proof.
  assert (unlisted_platform Sample.aix_lib_file) as Hun
    by (repeat split; discriminate).
  assert (platform_system Sample.aix_lib_file <> "OS400") as Hsys
    by discriminate.
  assert (find_lib_path Sample.aix_lib_file = Return ["/pkg/xgboost/lib"])
    as Hret by (vm_compute; reflexivity).
  split; [exact Hun |]. split; [exact Hsys |]. split; [reflexivity |].
  split; [exact Hret |].
  intros Hclaim. destruct (Hclaim Hun Hsys) as [Hnil | (e & Hraise)];
    rewrite Hret in *; discriminate.
Qed.

(** C9, amended: on a platform that matches none of the listed families
    and whose [platform.system()] is not ["OS400"], no file name is
    joined: the candidates are the bare base-directory paths.  Whenever
    none of these paths is itself a regular file, [find_lib_path] returns
    the empty list (documentation mode) or raises, whatever files exist
    inside those directories. *)
Theorem unlisted_platform_bare_directories (w : process) :
  unlisted_platform w -> platform_system w <> "OS400" ->
  dll_path w = builtin_dirs w ++ custom_dirs w
  /\ ((forall d, In d (builtin_dirs w ++ custom_dirs w) ->
       ~ is_regular_file w d) ->
      (build_doc w = true /\ find_lib_path w = Return [])
      \/ (build_doc w = false
          /\ exists m, find_lib_path w = Raise (XGBoostLibraryNotFound m))).
Proof.
  intros (Hwin & Hpre & Hdarwin & Hcyg) Hsys.
  assert (dll_path w = builtin_dirs w ++ custom_dirs w) as Hdll.
  { unfold dll_path, name_os400, name_by_platform.
    apply String.eqb_neq in Hwin, Hdarwin, Hcyg, Hsys.
    now rewrite Hsys, Hwin, Hpre, Hdarwin, Hcyg, extend_custom_app. }
  split; [exact Hdll |].
  intros Hnone. rewrite <- Hdll in Hnone. apply lib_path_nil in Hnone.
  destruct (find_lib_path_cases w)
    as [(_ & Hdoc & Hraise) | ([Hne | Hdoc] & Hok)].
  - right. eauto.
  - contradiction.
  - left. split; [exact Hdoc | now rewrite Hok, Hnone].
Qed.

Lemma unlisted_platform_bare_directories_witness :
  os_stat Sample.aix "/pkg/xgboost/lib/libxgboost.so" = Some S_IFREG
  /\ dll_path Sample.aix
     = ["/pkg/xgboost/lib"; "/pkg/xgboost/../../lib"; "/opt/freeware/lib"]
  /\ exists m, find_lib_path Sample.aix = Raise (XGBoostLibraryNotFound m).
Proof.
  assert (unlisted_platform Sample.aix) as Hun by (repeat split; discriminate).
  assert (platform_system Sample.aix <> "OS400") as Hsys by discriminate.
  destruct (unlisted_platform_bare_directories Sample.aix Hun Hsys)
    as (Hdll & Hout).
  split; [reflexivity |]. split; [rewrite Hdll; vm_compute; reflexivity |].
  destruct Hout as [(Hdoc & _) | (_ & Hraise)].
  - intros d Hin. vm_compute in Hin.
    destruct Hin as [<- | [<- | [<- | []]]]; vm_compute; discriminate.
  - vm_compute in Hdoc. discriminate Hdoc.
  - exact Hraise.
Defined.

(** C10: the override test is on presence only.  Whatever the value of
    [XGBOOST_LIBRARY_PATH], a set variable appends a base directory; set
    to the empty string, the appended base directory is the relative
    path [lib], and its candidate is the fourth of the list. *)
Theorem empty_override_still_adds_candidate (w : process) :
  (forall c, environ w !! "XGBOOST_LIBRARY_PATH" = Some c ->
   extend_custom w (builtin_dirs w)
   = builtin_dirs w ++ [os_path_join w c ["lib"]])
  /\ (environ w !! "XGBOOST_LIBRARY_PATH" = Some "" ->
      extend_custom w (builtin_dirs w) = builtin_dirs w ++ ["lib"]
      /\ nth_error (dll_path w) 3 = Some (candidate_of w "lib")).
Proof.
  split.
  - intros c Hc. now rewrite extend_custom_app, (custom_dirs_set w c Hc).
  - intros Hc. split.
    + now rewrite extend_custom_app, (custom_dirs_set w "" Hc),
        os_path_join_empty_lib.
    + rewrite dll_path_map. unfold search_dirs.
      now rewrite (custom_dirs_set w "" Hc), os_path_join_empty_lib.
Qed.

Lemma empty_override_still_adds_candidate_witness :
  extend_custom Sample.linux_empty_override
    (builtin_dirs Sample.linux_empty_override)
  = ["/pkg/xgboost/lib"; "/pkg/xgboost/../../lib"; "/usr/lib"; "lib"]
  /\ nth_error (dll_path Sample.linux_empty_override) 3
     = Some "lib/libxgboost.so".
Proof.
  assert (environ Sample.linux_empty_override !! "XGBOOST_LIBRARY_PATH"
          = Some "") as Hc by (vm_compute; reflexivity).
  destruct (proj2 (empty_override_still_adds_candidate
                     Sample.linux_empty_override) Hc) as (Hdirs & Hcand).
  split; [rewrite Hdirs | rewrite Hcand]; vm_compute; reflexivity.
Defined.

(** * Further properties *)

(** ** Lists *)

Section list_facts.
Variable f : string -> bool.

(** The head of a filtered list is the first element that passes. *)
Lemma filter_head (l : list string) (p : string) (r : list string) :
  List.filter f l = p :: r ->
  exists pre post,
    l = pre ++ p :: post
    /\ (forall q, In q pre -> f q = false)
    /\ f p = true
    /\ r = List.filter f post.
Proof.
  induction l as [|x l IH]; simpl; [discriminate |].
  destruct (f x) eqn:Hx.
  - intros [= -> <-]. exists [], l. repeat split; [intros q [] | exact Hx].
  - intros Hf. destruct (IH Hf) as (pre & post & -> & Hpre & Hp & Hr).
    exists (x :: pre), post. repeat split; try assumption.
    intros q [<- | Hq]; [exact Hx | now apply Hpre].
Qed.

Lemma filter_sublist (g : string -> bool) (l : list string) :
  (forall p, In p l -> f p = true -> g p = true) ->
  List.filter f l `sublist_of` List.filter g l.
Proof.
  induction l as [|x l IH]; intros Himp; simpl; [constructor |].
  assert (List.filter f l `sublist_of` List.filter g l) as Hrec
    by (apply IH; intros p Hp; apply Himp; now right).
  destruct (f x) eqn:Hx.
  - rewrite (Himp x (or_introl eq_refl) Hx). now constructor.
  - destruct (g x); [now constructor | exact Hrec].
Qed.

Lemma occurrences_filter (l : list string) (p : string) :
  occurrences p (List.filter f l)
  = if f p then occurrences p l else 0.
Proof.
  unfold occurrences.
  induction l as [|x l IH]; simpl; [now destruct (f p) |].
  destruct (f x) eqn:Hx; simpl; destruct (String.string_dec x p) as [-> | Hne];
    rewrite IH; try reflexivity.
  - now rewrite Hx.
  - now rewrite Hx.
Qed.

End list_facts.

(** ** A trailing separator *)

Section endswith_facts.

Lemma last1_cons_nonempty (c : ascii) (s : string) : PyStr.last1 (String c s) <> "".
Proof.
  revert c. induction s as [|d s IH]; intros c; [discriminate |].
  change (PyStr.last1 (String d s) <> ""). apply IH.
Qed.

Lemma last1_app (a b : string) :
  b <> "" -> PyStr.last1 (a +:+ b) = PyStr.last1 b.
Proof.
  intros Hb. induction a as [|c a IH]; [reflexivity |].
  rewrite str_app_cons.
  destruct (a +:+ b) as [|d t] eqn:E.
  - destruct a; [now destruct b | discriminate E].
  - exact IH.
Qed.

(** Whether the reversed string starts with the separator is read off the
    last character. *)
Lemma prefix_sep_rev_app (s acc : string) :
  String.prefix "/" (String.rev_app s acc)
  = match PyStr.last1 s with
    | "" => String.prefix "/" acc
    | String c _ => if ascii_dec "/" c then true else false
    end.
Proof.
  revert acc. induction s as [|a s IH]; intros acc; [reflexivity |].
  simpl String.rev_app. rewrite IH.
  destruct s as [|b s].
  { change (String.prefix "/" (String a acc)
            = if ascii_dec "/" a then true else false).
    change (String.prefix "/" (String a acc))
      with (if ascii_dec "/" a then String.prefix "" acc else false).
    destruct (ascii_dec "/" a); [now destruct acc | reflexivity]. }
  change (PyStr.last1 (String a (String b s)))
    with (PyStr.last1 (String b s)).
  destruct (PyStr.last1 (String b s)) eqn:E; [| reflexivity].
  now destruct (last1_cons_nonempty b s).
Qed.

Lemma endswith_sep (s : string) :
  PyStr.endswith s posixpath.sep
  = match PyStr.last1 s with
    | "" => false
    | String c _ => if ascii_dec "/" c then true else false
    end.
Proof.
  unfold PyStr.endswith, String.rev.
  change (String.rev_app posixpath.sep "") with "/".
  rewrite prefix_sep_rev_app. now destruct (PyStr.last1 s).
Qed.

Lemma endswith_sep_app (a b : string) :
  b <> "" ->
  PyStr.endswith (a +:+ b) posixpath.sep = PyStr.endswith b posixpath.sep.
Proof. intros Hb. now rewrite !endswith_sep, last1_app. Qed.

Lemma truthy_app (a b : string) :
  a <> "" -> PyStr.truthy (a +:+ b) = true.
Proof. now destruct a. Qed.

Lemma truthy_true (a : string) : a <> "" -> PyStr.truthy a = true.
Proof. now destruct a. Qed.

(** [posixpath.join] puts one separator between a directory that does not
    end in one and a relative name. *)
Lemma posix_join_step_sep (path b : string) :
  path <> "" -> PyStr.endswith path posixpath.sep = false ->
  PyStr.startswith b posixpath.sep = false ->
  posixpath.join_step path b = path +:+ "/" +:+ b.
Proof.
  intros Hne Hend Hb. unfold posixpath.join_step.
  now rewrite Hb, Hend, (truthy_true path Hne).
Qed.

(** It puts none after a directory that ends in one. *)
Lemma posix_join_step_nosep (path b : string) :
  PyStr.endswith path posixpath.sep = true ->
  PyStr.startswith b posixpath.sep = false ->
  posixpath.join_step path b = path +:+ b.
Proof.
  intros Hend Hb. unfold posixpath.join_step.
  now rewrite Hb, Hend, orb_true_r.
Qed.

Lemma posix_join_lib (d : string) :
  d <> "" -> PyStr.endswith d posixpath.sep = false ->
  posixpath.join d ["lib"] = d +:+ "/lib".
Proof.
  intros Hne Hend. unfold posixpath.join. simpl.
  now rewrite posix_join_step_sep.
Qed.

Lemma posix_join_up_up_lib (d : string) :
  d <> "" -> PyStr.endswith d posixpath.sep = false ->
  posixpath.join d [".."; ".."; "lib"] = d +:+ "/../../lib".
Proof.
  intros Hne Hend. unfold posixpath.join. simpl.
  rewrite (posix_join_step_sep d "..") by easy.
  rewrite (posix_join_step_sep (d +:+ "/" +:+ "..") "..");
    [| now destruct d | now rewrite endswith_sep_app | reflexivity].
  rewrite (posix_join_step_sep ((d +:+ "/" +:+ "..") +:+ "/" +:+ "..") "lib");
    [| now destruct d | now rewrite endswith_sep_app | reflexivity].
  now rewrite !str_app_assoc.
Qed.

Lemma posix_join_lib_trailing (c : string) :
  c <> "" -> PyStr.endswith c posixpath.sep = false ->
  posixpath.join (c +:+ "/") ["lib"] = posixpath.join c ["lib"].
Proof.
  intros Hne Hend. rewrite (posix_join_lib c Hne Hend).
  unfold posixpath.join. simpl.
  rewrite posix_join_step_nosep;
    [now rewrite str_app_assoc | now rewrite endswith_sep_app | reflexivity].
Qed.

End endswith_facts.

(** ** The file name of a joined path *)

Section file_name_facts.

Lemma last1_single (s : string) :
  s <> "" -> exists c, PyStr.last1 s = String c "".
Proof.
  induction s as [|a s IH]; [easy |]. intros _.
  destruct s as [|b s]; [now exists a |].
  change (PyStr.last1 (String a (String b s)))
    with (PyStr.last1 (String b s)).
  now apply IH.
Qed.

Lemma last1_sep_posix (p : string) :
  PyStr.endswith p posixpath.sep = true ->
  PyStr.char_in (PyStr.last1 p) "/" = true.
Proof.
  rewrite endswith_sep. intros Hend.
  destruct p as [|a p]; [discriminate Hend |].
  destruct (last1_single (String a p)) as (c & Hc); [discriminate |].
  rewrite Hc in *.
  destruct (ascii_dec "/" c) as [<- | _]; [reflexivity | discriminate Hend].
Qed.

Lemma char_in_seps_breaks (c : string) :
  PyStr.char_in c ntpath.seps = true -> PyStr.char_in c "\/:" = true.
Proof.
  destruct c as [|a [|b c]]; try discriminate. simpl.
  destruct (Ascii.eqb a "\"); [reflexivity |].
  destruct (Ascii.eqb a "/"); [reflexivity | discriminate].
Qed.

Lemma posix_join_file_name (p name : string) :
  plain_name name ->
  exists stem,
    posixpath.join p [name] = stem +:+ name
    /\ (stem = "" \/ PyStr.char_in (PyStr.last1 stem) "/" = true).
Proof.
  intros (Hsep & _). unfold posixpath.join, posixpath.join_step. simpl.
  rewrite Hsep.
  destruct (PyStr.truthy p) eqn:Hp; simpl.
  - destruct (PyStr.endswith p posixpath.sep) eqn:Hend.
    + exists p. split; [reflexivity | right; now apply last1_sep_posix].
    + exists (p +:+ posixpath.sep). split; [now rewrite str_app_assoc |].
      right. now rewrite last1_app.
  - exists p. split; [reflexivity | left; now destruct p].
Qed.

Lemma nt_join_file_name (p name : string) :
  plain_name name -> name <> "" ->
  exists stem,
    ntpath.join p [name] = stem +:+ name
    /\ (stem = "" \/ PyStr.char_in (PyStr.last1 stem) "\/:" = true).
Proof.
  intros (_ & Hsplit & Hchar) Hname. unfold ntpath.join. simpl.
  destruct (ntpath.splitdrive p) as [rd rp].
  unfold ntpath.join_step. rewrite Hsplit, Hchar, andb_false_r. simpl.
  unfold ntpath.append_relative.
  set (rp' := if PyStr.truthy rp
                 && negb (PyStr.char_in (PyStr.last1 rp) ntpath.seps)
              then rp +:+ ntpath.sep else rp).
  assert (rp' = ""
          \/ (rp' <> ""
              /\ PyStr.char_in (PyStr.last1 rp') ntpath.seps = true))
    as [Hrp | (Hrp & Hlast)].
  { subst rp'. destruct rp as [|a rp]; [now left | right].
    change (PyStr.truthy (String a rp)) with true. cbn [andb].
    destruct (PyStr.char_in (PyStr.last1 (String a rp)) ntpath.seps)
      eqn:Hlast; cbn [negb].
    - split; [discriminate | exact Hlast].
    - split; [discriminate | now rewrite last1_app]. }
  - (* no path part: the name follows the drive *)
    rewrite Hrp. change ("" +:+ name) with name.
    rewrite (truthy_true name Hname), Hchar. cbn [andb negb].
    destruct (PyStr.truthy rd) eqn:Hrd; cbn [andb].
    + destruct (String.eqb (PyStr.last1 rd) ntpath.colon) eqn:Hcolon;
        cbn [negb].
      * exists rd. split; [reflexivity | right].
        apply String.eqb_eq in Hcolon. now rewrite Hcolon.
      * exists (rd +:+ ntpath.sep). split; [now rewrite str_app_assoc |].
        right. now rewrite last1_app.
    + exists rd. split; [reflexivity | left; now destruct rd].
  - match goal with |- context [if ?c then _ else _] => destruct c end.
    + exists (rd +:+ ntpath.sep +:+ rp').
      split; [now rewrite !str_app_assoc |]. right.
      rewrite <- str_app_assoc, last1_app by exact Hrp.
      now apply char_in_seps_breaks.
    + exists (rd +:+ rp'). split; [now rewrite str_app_assoc |]. right.
      rewrite last1_app by exact Hrp. now apply char_in_seps_breaks.
Qed.

Lemma os_path_join_file_name (w : process) (p name : string) :
  plain_name name -> name <> "" ->
  has_file_name w name (os_path_join w p [name]).
Proof.
  intros Hplain Hname. unfold has_file_name, component_breaks, os_path_join.
  destruct (os_path w);
    [now apply posix_join_file_name | now apply nt_join_file_name].
Qed.

End file_name_facts.

(** C3: when [platform.system()] is ["OS400"], every candidate has the
    library file name [libxgboost.so], whatever [sys.platform] is and
    whatever the platform chain did before; where no branch of the
    platform chain applies, as on IBM i, the candidates are the base
    directories joined with [libxgboost.so]. *)
Theorem os400_file_name_is_libxgboost_so (w : process) :
  platform_system w = "OS400" ->
  (forall p, In p (dll_path w) -> has_file_name w "libxgboost.so" p)
  /\ (unlisted_platform w ->
      dll_path w
      = map (fun d => os_path_join w d ["libxgboost.so"])
          (builtin_dirs w ++ custom_dirs w ++ platform_dirs w)).
Proof.
  intros Hsys.
  assert (dll_path w
          = with_name w "libxgboost.so"
              (name_by_platform w (extend_custom w (builtin_dirs w))))
    as Hdll.
  { unfold dll_path, name_os400. now rewrite Hsys. }
  split.
  - intros p Hin. rewrite Hdll in Hin. unfold with_name in Hin.
    apply in_map_iff in Hin as (q & <- & _).
    apply os_path_join_file_name; [apply plain_libxgboost_so | discriminate].
  - intros (Hwin & Hpre & Hdarwin & Hcyg). rewrite Hdll.
    unfold name_by_platform, platform_dirs, with_name.
    apply String.eqb_neq in Hwin, Hdarwin, Hcyg.
    now rewrite Hwin, Hpre, Hdarwin, Hcyg, extend_custom_app, app_nil_r.
Qed.

Lemma os400_file_name_is_libxgboost_so_witness :
  dll_path Sample.os400
  = [ "/pkg/xgboost/lib/libxgboost.so";
      "/pkg/xgboost/../../lib/libxgboost.so";
      "/QOpenSys/pkgs/lib/libxgboost.so" ]
  /\ has_file_name Sample.os400 "libxgboost.so"
       "/pkg/xgboost/lib/libxgboost.so".
Proof.
  destruct (os400_file_name_is_libxgboost_so Sample.os400 eq_refl)
    as (Hname & Hdll).
  split.
  - rewrite Hdll; [vm_compute; reflexivity | repeat split; discriminate].
  - apply Hname. vm_compute. tauto.
Defined.

(** ** Processes with the same candidates *)

Section settings_facts.
Variables w1 w2 : process.

Lemma dll_path_settings : same_settings w1 w2 -> dll_path w1 = dll_path w2.
Proof.
  intros [Hpath Hplat Hsys Hpre Hdir Hcustom].
  unfold dll_path, name_os400, name_by_platform, with_name, windows_dirs,
    extend_custom, builtin_dirs, curr_path, os_path_pardir, os_path_join.
  rewrite Hpath, Hplat, Hsys, Hpre, Hdir, Hcustom. reflexivity.
Qed.

(** The outcome is fixed by the candidates, the files at the candidates,
    the documentation flag and the two strings the message quotes. *)
Lemma outcome_ext :
  dll_path w1 = dll_path w2 ->
  (forall p, In p (dll_path w1) -> os_stat w1 p = os_stat w2 p) ->
  build_doc w1 = build_doc w2 ->
  package_dir w1 = package_dir w2 ->
  sys_base_prefix w1 = sys_base_prefix w2 ->
  find_lib_path w1 = find_lib_path w2.
Proof.
  intros Hdll Hstat Hdoc Hdir Hpre.
  assert (lib_path w1 = lib_path w2) as Hlib.
  { unfold lib_path. rewrite <- Hdll.
    apply List.filter_ext_in. intros p Hin.
    unfold os_path_exists, os_path_isfile. now rewrite (Hstat p Hin). }
  unfold find_lib_path, msg, curr_path.
  now rewrite Hlib, Hdoc, Hdll, Hdir, Hpre.
Qed.

End settings_facts.

Lemma found_returns (w : process) :
  (exists p, In p (dll_path w) /\ is_regular_file w p) ->
  lib_path w <> [] /\ find_lib_path w = Return (lib_path w).
Proof.
  intros (p & Hin & Hreg).
  assert (lib_path w <> []) as Hne.
  { intros Hnil. exact (proj1 (lib_path_nil w) Hnil p Hin Hreg). }
  split; [exact Hne |].
  destruct (find_lib_path_cases w) as [(Hnil & _) | (_ & Hok)];
    [contradiction | exact Hok].
Qed.

Lemma returned_is_lib_path (w : process) (l : list string) :
  find_lib_path w = Return l ->
  l = lib_path w /\ (lib_path w <> [] \/ build_doc w = true).
Proof.
  intros Hret.
  destruct (find_lib_path_cases w) as [(_ & _ & Hraise) | (Hwhy & Hok)];
    [congruence |].
  split; [congruence | exact Hwhy].
Qed.

Lemma plain_xgboost_dll : plain_name "xgboost.dll".
Proof. repeat split. Qed.

Lemma plain_libxgboost_dylib : plain_name "libxgboost.dylib".
Proof. repeat split. Qed.

Lemma plain_cygxgboost_dll : plain_name "cygxgboost.dll".
Proof. repeat split. Qed.

Lemma with_name_plain (w : process) (n : string) (l : list string) (p : string) :
  plain_name n -> In p (with_name w n l) -> exists stem, p = stem +:+ n.
Proof.
  intros Hn Hin. unfold with_name in Hin.
  apply in_map_iff in Hin as (q & <- & _). now apply os_path_join_plain.
Qed.

(** ** The extras *)

(** X1: there are three candidates, one more when the override is set and
    seven more on [win32]: never fewer than three nor more than eleven,
    and a returned list is no longer than the candidate list. *)
Theorem dll_path_length (w : process) :
  length (dll_path w)
  = 3 + (match environ w !! "XGBOOST_LIBRARY_PATH" with
         | Some _ => 1
         | None => 0
         end)
      + (if String.eqb (sys_platform w) "win32" then 7 else 0)
  /\ 3 <= length (dll_path w) <= 11
  /\ (forall l, find_lib_path w = Return l -> length l <= length (dll_path w)).
Proof.
  assert (length (dll_path w)
          = 3 + (match environ w !! "XGBOOST_LIBRARY_PATH" with
                 | Some _ => 1
                 | None => 0
                 end)
              + (if String.eqb (sys_platform w) "win32" then 7 else 0))
    as Hlen.
  { rewrite dll_path_map, List.length_map.
    unfold search_dirs, custom_dirs, platform_dirs.
    rewrite !List.length_app.
    destruct (environ w !! "XGBOOST_LIBRARY_PATH");
      destruct (String.eqb (sys_platform w) "win32"); reflexivity. }
  split; [exact Hlen | split].
  - rewrite Hlen.
    destruct (environ w !! "XGBOOST_LIBRARY_PATH");
      destruct (String.eqb (sys_platform w) "win32"); simpl; lia.
  - intros l Hret. apply returned_is_lib_path in Hret as [-> _].
    apply List.filter_length_le.
Qed.

Lemma dll_path_length_witness :
  length ["/opt/custom/lib/libxgboost.so"] <= length (dll_path Sample.linux).
Proof.
  apply (proj2 (proj2 (dll_path_length Sample.linux))).
  vm_compute. reflexivity.
Defined.

(** X2: on a platform with a library file name ([xgboost.dll],
    [libxgboost.so], [libxgboost.dylib], [cygxgboost.dll], or
    [libxgboost.so] under OS400) every candidate, and so every returned
    path, ends in that name: a bare directory is never returned there. *)
Theorem returned_paths_end_in_library_name (w : process) (n : string) :
  library_name w = Some n ->
  (forall p, In p (dll_path w) -> exists stem, p = stem +:+ n)
  /\ (forall l p, find_lib_path w = Return l -> In p l ->
      exists stem, p = stem +:+ n).
Proof.
  intros Hn.
  assert (forall p, In p (dll_path w) -> exists stem, p = stem +:+ n) as Hall.
  { intros p Hin. unfold library_name in Hn.
    unfold dll_path, name_os400, name_by_platform in Hin.
    destruct (String.eqb (platform_system w) "OS400").
    { injection Hn as <-.
      exact (with_name_plain w _ _ p plain_libxgboost_so Hin). }
    destruct (String.eqb (sys_platform w) "win32").
    { injection Hn as <-.
      exact (with_name_plain w _ _ p plain_xgboost_dll Hin). }
    destruct (PyStr.startswith_any (sys_platform w) _).
    { injection Hn as <-.
      exact (with_name_plain w _ _ p plain_libxgboost_so Hin). }
    destruct (String.eqb (sys_platform w) "darwin").
    { injection Hn as <-.
      exact (with_name_plain w _ _ p plain_libxgboost_dylib Hin). }
    destruct (String.eqb (sys_platform w) "cygwin"); [| discriminate Hn].
    injection Hn as <-.
    exact (with_name_plain w _ _ p plain_cygxgboost_dll Hin). }
  split; [exact Hall |].
  intros l p Hret Hin. apply returned_is_lib_path in Hret as [-> _].
  apply lib_path_In in Hin as [Hin _]. now apply Hall.
Qed.

Lemma returned_paths_end_in_library_name_witness :
  exists stem, "C:\conda\Library\bin\xgboost.dll" = stem +:+ "xgboost.dll".
Proof.
  apply (proj2 (returned_paths_end_in_library_name Sample.windows
                  "xgboost.dll" eq_refl)
           ["C:\conda\Library\bin\xgboost.dll"]).
  - vm_compute. reflexivity.
  - left. reflexivity.
Defined.

(** X3: the first path of a returned list is the earliest candidate that
    is a regular file; in particular a library in the package's own [lib]
    directory comes first whatever else is installed. *)
Theorem first_regular_candidate_heads_result (w : process) :
  (forall p l, find_lib_path w = Return (p :: l) ->
   exists pre post,
     dll_path w = pre ++ p :: post
     /\ (forall q, In q pre -> ~ is_regular_file w q)
     /\ is_regular_file w p)
  /\ (is_regular_file w
        (candidate_of w (os_path_join w (package_dir w) ["lib"])) ->
      exists l,
        find_lib_path w
        = Return (candidate_of w (os_path_join w (package_dir w) ["lib"])
                  :: l)).
Proof.
  split.
  - intros p l Hret. apply returned_is_lib_path in Hret as [Hl _].
    rewrite lib_path_filter in Hl. symmetry in Hl.
    destruct (filter_head _ _ _ _ Hl) as (pre & post & Hdll & Hpre & Hp & _).
    exists pre, post. split; [exact Hdll | split].
    + intros q Hq. apply (bool_decide_eq_false_1 _ (Hpre q Hq)).
    + now apply bool_decide_eq_true in Hp.
  - intros Hreg.
    assert (dll_path w
            = candidate_of w (os_path_join w (package_dir w) ["lib"])
              :: List.tl (dll_path w)) as Hdll
      by (now rewrite dll_path_map).
    destruct (found_returns w) as [_ Hok].
    { eexists. split; [rewrite Hdll; left; reflexivity | exact Hreg]. }
    rewrite Hok, lib_path_filter, Hdll. simpl.
    rewrite (bool_decide_eq_true_2 _ Hreg). eauto.
Qed.

Lemma first_regular_candidate_heads_result_witness :
  exists l,
    find_lib_path Scenario.installed
    = Return ("/pkg/xgboost/lib/libxgboost.so" :: l).
Proof.
  apply (proj2 (first_regular_candidate_heads_result Scenario.installed)).
  vm_compute. reflexivity.
Defined.

(** X4: more files never give less.  Between two states with the same
    settings, if every candidate that is a regular file in the first is
    one in the second and the documentation flag is not lost, the first
    list of found paths is a sub-list of the second, and a call that
    returned in the first returns in the second. *)
Theorem more_files_more_results (w1 w2 : process) :
  same_settings w1 w2 ->
  (forall p, In p (dll_path w1) ->
   is_regular_file w1 p -> is_regular_file w2 p) ->
  (build_doc w1 = true -> build_doc w2 = true) ->
  lib_path w1 `sublist_of` lib_path w2
  /\ (forall l1, find_lib_path w1 = Return l1 ->
      exists l2, find_lib_path w2 = Return l2 /\ l1 `sublist_of` l2).
Proof.
  intros Hset Hreg Hdoc.
  assert (lib_path w1 `sublist_of` lib_path w2) as Hsub.
  { rewrite !lib_path_filter, <- (dll_path_settings w1 w2 Hset).
    apply filter_sublist. intros p Hin Hp.
    apply bool_decide_eq_true. apply bool_decide_eq_true in Hp. auto. }
  split; [exact Hsub |].
  intros l1 Hret. apply returned_is_lib_path in Hret as [-> Hwhy].
  exists (lib_path w2). split; [| exact Hsub].
  destruct (find_lib_path_cases w2) as [(Hnil & Hdoc2 & _) | (_ & Hok)];
    [| exact Hok].
  destruct Hwhy as [Hne | Hdoc1].
  - rewrite Hnil in Hsub. apply sublist_nil_r in Hsub. contradiction.
  - rewrite (Hdoc Hdoc1) in Hdoc2. discriminate Hdoc2.
Qed.

Lemma more_files_more_results_witness :
  ["/usr/lib/libxgboost.so"] `sublist_of` lib_path Scenario.installed.
Proof.
  apply (proj1 (more_files_more_results
                  Scenario.system_only Scenario.installed
                  ltac:(split; vm_compute; reflexivity)
                  ltac:(intros p Hin; vm_compute in Hin;
                        destruct Hin as [<- | [<- | [<- | []]]];
                        vm_compute; congruence)
                  ltac:(vm_compute; reflexivity))).
Defined.

(** X5: [XGBOOST_BUILD_DOC] is consulted only when nothing is found.
    When some candidate is a regular file, two states with the same
    settings and the same files at the candidates give the same returned
    list, whatever the flag is in each. *)
Theorem build_doc_ignored_when_found (w1 w2 : process) :
  same_settings w1 w2 ->
  (forall p, In p (dll_path w1) -> os_stat w1 p = os_stat w2 p) ->
  (exists p, In p (dll_path w1) /\ is_regular_file w1 p) ->
  find_lib_path w1 = find_lib_path w2
  /\ find_lib_path w1 = Return (lib_path w1).
Proof.
  intros Hset Hstat (p & Hin & Hreg).
  destruct (found_returns w1) as [_ Hok1]; [eauto |].
  destruct (found_returns w2) as [_ Hok2].
  { exists p. rewrite <- (dll_path_settings w1 w2 Hset).
    split; [exact Hin |]. unfold is_regular_file.
    now rewrite <- (Hstat p Hin). }
  split; [| exact Hok1]. rewrite Hok1, Hok2. f_equal.
  unfold lib_path. rewrite <- (dll_path_settings w1 w2 Hset).
  apply List.filter_ext_in. intros q Hq.
  unfold os_path_exists, os_path_isfile. now rewrite (Hstat q Hq).
Qed.

Lemma build_doc_ignored_when_found_witness :
  find_lib_path Sample.linux
  = find_lib_path (setenv "XGBOOST_BUILD_DOC" "1" Sample.linux).
Proof.
  apply (proj1 (build_doc_ignored_when_found
                  Sample.linux (setenv "XGBOOST_BUILD_DOC" "1" Sample.linux)
                  ltac:(split; vm_compute; reflexivity)
                  ltac:(reflexivity)
                  ltac:(exists "/opt/custom/lib/libxgboost.so";
                        split; vm_compute; [tauto | reflexivity]))).
Defined.

(** X6: outside documentation mode a returned list is never empty; an
    empty list is returned only in documentation mode. *)
Theorem returned_list_nonempty_outside_doc_mode
    (w : process) (l : list string) :
  find_lib_path w = Return l ->
  (build_doc w = false -> l <> [])
  /\ (l = [] ->
      exists v, environ w !! "XGBOOST_BUILD_DOC" = Some v /\ v <> "").
Proof.
  intros Hret. apply returned_is_lib_path in Hret as [-> Hwhy].
  split.
  - intros Hdoc. destruct Hwhy as [Hne | Htrue]; [exact Hne | congruence].
  - intros Hnil. apply build_doc_true.
    destruct Hwhy as [Hne | Htrue]; [contradiction | exact Htrue].
Qed.

Lemma returned_list_nonempty_outside_doc_mode_witness :
  ["/opt/custom/lib/libxgboost.so"] <> [].
Proof.
  apply (proj1 (returned_list_nonempty_outside_doc_mode Sample.linux _
                  ltac:(vm_compute; reflexivity))).
  vm_compute. reflexivity.
Defined.

(** ** Setting the variables *)

Section setenv_facts.
Variable w : process.

Lemma dll_path_setenv_custom (c : string) :
  dll_path (setenv "XGBOOST_LIBRARY_PATH" c w)
  = name_os400 w
      (name_by_platform w (builtin_dirs w ++ [os_path_join w c ["lib"]])).
Proof.
  unfold dll_path, extend_custom. simpl environ.
  rewrite lookup_insert_eq. reflexivity.
Qed.

Lemma build_doc_setenv_custom (c : string) :
  build_doc (setenv "XGBOOST_LIBRARY_PATH" c w) = build_doc w.
Proof.
  unfold build_doc. simpl environ. now rewrite lookup_insert_ne.
Qed.

Lemma build_doc_unset_custom : build_doc (unset_custom w) = build_doc w.
Proof.
  unfold build_doc. simpl environ. now rewrite lookup_delete_ne.
Qed.

Lemma lib_path_unset_custom :
  lib_path (unset_custom w)
  = List.filter (fun p => os_path_exists w p && os_path_isfile w p)
      (map (candidate_of w) (builtin_dirs w ++ platform_dirs w)).
Proof. unfold lib_path. now rewrite dll_path_unset. Qed.

End setenv_facts.

(** X7: with [posixpath], a separator at the end of the override's value
    changes nothing: [XGBOOST_LIBRARY_PATH=<c>/] and
    [XGBOOST_LIBRARY_PATH=<c>] give the same candidates and the same
    outcome. *)
Theorem override_trailing_separator (w : process) (c : string) :
  os_path w = Posix ->
  c <> "" -> PyStr.endswith c "/" = false ->
  dll_path (setenv "XGBOOST_LIBRARY_PATH" (c +:+ "/") w)
  = dll_path (setenv "XGBOOST_LIBRARY_PATH" c w)
  /\ find_lib_path (setenv "XGBOOST_LIBRARY_PATH" (c +:+ "/") w)
     = find_lib_path (setenv "XGBOOST_LIBRARY_PATH" c w).
Proof.
  intros Hposix Hne Hend.
  assert (dll_path (setenv "XGBOOST_LIBRARY_PATH" (c +:+ "/") w)
          = dll_path (setenv "XGBOOST_LIBRARY_PATH" c w)) as Hdll.
  { rewrite !dll_path_setenv_custom. unfold os_path_join.
    rewrite Hposix. now rewrite (posix_join_lib_trailing c Hne Hend). }
  split; [exact Hdll |].
  apply outcome_ext; try reflexivity; [exact Hdll |].
  now rewrite !build_doc_setenv_custom.
Qed.

Lemma override_trailing_separator_witness :
  find_lib_path (setenv "XGBOOST_LIBRARY_PATH" "/opt/custom/" Sample.linux)
  = find_lib_path (setenv "XGBOOST_LIBRARY_PATH" "/opt/custom" Sample.linux).
Proof.
  apply (proj2 (override_trailing_separator Sample.linux "/opt/custom"
                  eq_refl ltac:(discriminate) eq_refl)).
Defined.

(** X8: with [posixpath], a package directory and a base prefix that are
    not empty and do not end in a separator give the built-in directories
    [<dir>/lib], [<dir>/../../lib] and [<prefix>/lib], and a file name
    that does not start with a separator gives the candidates
    [<dir>/lib/<name>], [<dir>/../../lib/<name>], [<prefix>/lib/<name>]. *)
Theorem posix_builtin_candidates (w : process) :
  os_path w = Posix ->
  package_dir w <> "" -> PyStr.endswith (package_dir w) "/" = false ->
  sys_base_prefix w <> "" -> PyStr.endswith (sys_base_prefix w) "/" = false ->
  builtin_dirs w
  = [ package_dir w +:+ "/lib";
      package_dir w +:+ "/../../lib";
      sys_base_prefix w +:+ "/lib" ]
  /\ (forall name, PyStr.startswith name "/" = false ->
      with_name w name (builtin_dirs w)
      = [ package_dir w +:+ "/lib/" +:+ name;
          package_dir w +:+ "/../../lib/" +:+ name;
          sys_base_prefix w +:+ "/lib/" +:+ name ]).
Proof.
  intros Hposix Hdir Hdir_end Hpre Hpre_end.
  assert (builtin_dirs w
          = [ package_dir w +:+ "/lib";
              package_dir w +:+ "/../../lib";
              sys_base_prefix w +:+ "/lib" ]) as Hdirs.
  { unfold builtin_dirs, curr_path, os_path_pardir, os_path_join.
    rewrite Hposix.
    now rewrite !posix_join_lib, posix_join_up_up_lib. }
  split; [exact Hdirs |].
  intros name Hname. rewrite Hdirs.
  unfold with_name, os_path_join, posixpath.join. rewrite Hposix. simpl.
  rewrite !posix_join_step_sep; try assumption;
    try (now rewrite endswith_sep_app);
    try (now destruct (package_dir w));
    try (now destruct (sys_base_prefix w)).
  now rewrite !str_app_assoc.
Qed.

Lemma posix_builtin_candidates_witness :
  with_name Sample.darwin "libxgboost.dylib" (builtin_dirs Sample.darwin)
  = [ "/pkg/xgboost/lib/libxgboost.dylib";
      "/pkg/xgboost/../../lib/libxgboost.dylib";
      "/usr/local/lib/libxgboost.dylib" ].
Proof.
  apply (proj2 (posix_builtin_candidates Sample.darwin eq_refl
                  ltac:(discriminate) eq_refl ltac:(discriminate) eq_refl)
           "libxgboost.dylib" eq_refl).
Defined.

(** X9: nothing is removed as a duplicate.  A regular file is returned
    as often as it occurs among the candidates; when the override names
    the base prefix, [<prefix>/lib/<name>] is a candidate twice and, if
    it is a regular file, is returned at least twice. *)
Theorem no_deduplication (w : process) (l : list string) :
  find_lib_path w = Return l ->
  (forall p, is_regular_file w p ->
   occurrences p l = occurrences p (dll_path w))
  /\ (environ w !! "XGBOOST_LIBRARY_PATH" = Some (sys_base_prefix w) ->
      is_regular_file w
        (candidate_of w (os_path_join w (sys_base_prefix w) ["lib"])) ->
      2 <= occurrences
             (candidate_of w (os_path_join w (sys_base_prefix w) ["lib"])) l).
Proof.
  intros Hret. apply returned_is_lib_path in Hret as [-> _].
  assert (forall p, is_regular_file w p ->
          occurrences p (lib_path w) = occurrences p (dll_path w)) as Hocc.
  { intros p Hreg. rewrite lib_path_filter, occurrences_filter.
    now rewrite (bool_decide_eq_true_2 _ Hreg). }
  split; [exact Hocc |].
  intros Hc Hreg. rewrite (Hocc _ Hreg), dll_path_map.
  unfold search_dirs. rewrite (custom_dirs_set w _ Hc), !map_app.
  unfold occurrences. rewrite !count_occ_app.
  set (p := candidate_of w (os_path_join w (sys_base_prefix w) ["lib"])).
  assert (1 <= count_occ String.string_dec
                 (map (candidate_of w) (builtin_dirs w)) p) as H1.
  { apply count_occ_In. unfold builtin_dirs. simpl. tauto. }
  assert (1 <= count_occ String.string_dec
                 (map (candidate_of w) [os_path_join w (sys_base_prefix w) ["lib"]])
                 p) as H2.
  { apply count_occ_In. left. reflexivity. }
  lia.
Qed.

Lemma no_deduplication_witness :
  2 <= occurrences "/opt/conda/lib/libxgboost.so"
         ["/opt/conda/lib/libxgboost.so"; "/opt/conda/lib/libxgboost.so"].
Proof.
  apply (proj2 (no_deduplication Scenario.conda _
                  ltac:(vm_compute; reflexivity))).
  - vm_compute. reflexivity.
  - vm_compute. reflexivity.
Defined.

(** X10: the override only adds to the result.  The paths found without
    [XGBOOST_LIBRARY_PATH] are a sub-list of those found with it, a call
    that returned without it returns with it, and when the override's
    candidate is the only regular file the result is that one path. *)
Theorem override_keeps_results (w : process) (c : string) :
  environ w !! "XGBOOST_LIBRARY_PATH" = Some c ->
  lib_path (unset_custom w) `sublist_of` lib_path w
  /\ (forall l, find_lib_path (unset_custom w) = Return l ->
      exists l', find_lib_path w = Return l' /\ l `sublist_of` l')
  /\ ((forall p, In p (dll_path (unset_custom w)) -> ~ is_regular_file w p) ->
      is_regular_file w (candidate_of w (os_path_join w c ["lib"])) ->
      find_lib_path w
      = Return [candidate_of w (os_path_join w c ["lib"])]).
Proof.
  intros Hc.
  set (f := fun p => os_path_exists w p && os_path_isfile w p).
  set (x := candidate_of w (os_path_join w c ["lib"])).
  assert (lib_path (unset_custom w)
          = List.filter f (map (candidate_of w) (builtin_dirs w))
            ++ List.filter f (map (candidate_of w) (platform_dirs w)))
    as Hunset by (now rewrite lib_path_unset_custom, map_app, List.filter_app).
  assert (lib_path w
          = List.filter f (map (candidate_of w) (builtin_dirs w))
            ++ List.filter f [x]
            ++ List.filter f (map (candidate_of w) (platform_dirs w)))
    as Hset.
  { unfold lib_path. rewrite dll_path_map. unfold search_dirs.
    now rewrite (custom_dirs_set w c Hc), !map_app, !List.filter_app. }
  assert (lib_path (unset_custom w) `sublist_of` lib_path w) as Hsub.
  { rewrite Hunset, Hset.
    apply sublist_app; [reflexivity | now apply sublist_inserts_l]. }
  split; [exact Hsub | split].
  - intros l Hret. apply returned_is_lib_path in Hret as [-> Hwhy].
    exists (lib_path w). split; [| exact Hsub].
    destruct (find_lib_path_cases w) as [(Hnil & Hdoc & _) | (_ & Hok)];
      [| exact Hok].
    rewrite build_doc_unset_custom in Hwhy.
    destruct Hwhy as [Hne | Htrue]; [| congruence].
    rewrite Hnil in Hsub. apply sublist_nil_r in Hsub. contradiction.
  - intros Hnone Hreg.
    assert (lib_path (unset_custom w) = []) as Hnil
      by (apply lib_path_nil; exact Hnone).
    rewrite Hunset in Hnil. apply app_eq_nil in Hnil as [HA HB].
    assert (lib_path w = [x]) as Hone.
    { rewrite Hset, HA, HB. simpl. unfold f.
      rewrite regular_test, (bool_decide_eq_true_2 _ Hreg). reflexivity. }
    destruct (find_lib_path_cases w) as [(Hnil & _) | (_ & Hok)];
      [congruence | now rewrite Hok, Hone].
Qed.

Lemma override_keeps_results_witness :
  find_lib_path Sample.linux = Return ["/opt/custom/lib/libxgboost.so"].
Proof.
  apply (proj2 (proj2 (override_keeps_results Sample.linux "/opt/custom"
                         ltac:(vm_compute; reflexivity)))).
  - intros p Hin. vm_compute in Hin.
    destruct Hin as [<- | [<- | [<- | []]]]; vm_compute; discriminate.
  - vm_compute. reflexivity.
Defined.

(** ** A drive-letter prefix *)

Section drive_letter_facts.

Lemma nt_splitdrive_letter (a : ascii) (r : string) :
  ntpath.splitdrive (String a (String ":" r)) = (String a ":", r).
Proof.
  unfold ntpath.splitdrive.
  change (Nat.leb 2 (String.length (String a (String ":" r)))) with true.
  cbv iota.
  set (a' := if Ascii.eqb a "/" then "\"%char else a).
  change (PyStr.slice 0 2
            (PyStr.replace_char "/" "\" (String a (String ":" r))))
    with (String a' ":").
  change (PyStr.slice 1 2
            (PyStr.replace_char "/" "\" (String a (String ":" r))))
    with ":".
  change (String a' ":" =? ntpath.sep +:+ ntpath.sep)
    with (if Ascii.eqb a' "\" then false else false).
  now destruct (Ascii.eqb a' "\").
Qed.

(** One iteration of [ntpath.join] on a plain name, after a path part that
    is not empty and does not end in a separator. *)
Lemma nt_join_step_sep (rd rp name : string) :
  plain_name name ->
  rp <> "" -> PyStr.char_in (PyStr.last1 rp) ntpath.seps = false ->
  ntpath.join_step (rd, rp) name = (rd, rp +:+ "\" +:+ name).
Proof.
  intros (_ & Hsplit & Hchar) Hne Hlast.
  unfold ntpath.join_step. rewrite Hsplit, Hchar, andb_false_r. simpl.
  unfold ntpath.append_relative.
  rewrite (truthy_true rp Hne), Hlast. cbn [andb negb].
  now rewrite str_app_assoc.
Qed.

(** With a drive letter nothing is put between drive and path. *)
Lemma nt_join_letter_result (a : ascii) (rp : string) :
  (if PyStr.truthy rp
      && negb (PyStr.char_in (PyStr.slice 0 1 rp) ntpath.seps)
      && PyStr.truthy (String a ":")
      && negb (String.eqb (PyStr.last1 (String a ":")) ntpath.colon)
   then String a ":" +:+ ntpath.sep +:+ rp
   else String a ":" +:+ rp)
  = String a (String ":" rp).
Proof.
  change (String.eqb (PyStr.last1 (String a ":")) ntpath.colon) with true.
  now rewrite andb_false_r.
Qed.

Lemma plain_bin : plain_name "bin".
Proof. repeat split. Qed.

Lemma plain_lib : plain_name "lib".
Proof. repeat split. Qed.

Lemma plain_Library : plain_name "Library".
Proof. repeat split. Qed.

Lemma plain_mingw : plain_name "mingw-w64".
Proof. repeat split. Qed.

End drive_letter_facts.

Create HintDb plain.
#[local] Hint Resolve plain_bin plain_lib plain_Library plain_mingw
  plain_xgboost_dll : plain.

(** Side conditions of [nt_join_step_sep] on a path part that is [r]
    followed by literal text. *)
Ltac nt_side r :=
  first
    [ solve [auto with plain]
    | solve [now destruct r]
    | solve [assumption]
    | solve [rewrite ?str_app_assoc; now rewrite last1_app] ].

(** X11: with [ntpath] and a base prefix [X:<path>] whose path part is
    not empty and does not end in a separator, the seven Windows
    candidates are the prefix followed by [\bin\xgboost.dll],
    [\Library\xgboost.dll], [\Library\bin\xgboost.dll],
    [\Library\lib\xgboost.dll], [\Library\mingw-w64\xgboost.dll],
    [\Library\mingw-w64\bin\xgboost.dll] and
    [\Library\mingw-w64\lib\xgboost.dll]. *)
Theorem windows_candidates_drive_letter
    (w : process) (a : ascii) (r : string) :
  os_path w = Nt ->
  sys_base_prefix w = String a (String ":" r) ->
  r <> "" -> PyStr.char_in (PyStr.last1 r) ntpath.seps = false ->
  with_name w "xgboost.dll" (windows_dirs w)
  = [ sys_base_prefix w +:+ "\bin\xgboost.dll";
      sys_base_prefix w +:+ "\Library\xgboost.dll";
      sys_base_prefix w +:+ "\Library\bin\xgboost.dll";
      sys_base_prefix w +:+ "\Library\lib\xgboost.dll";
      sys_base_prefix w +:+ "\Library\mingw-w64\xgboost.dll";
      sys_base_prefix w +:+ "\Library\mingw-w64\bin\xgboost.dll";
      sys_base_prefix w +:+ "\Library\mingw-w64\lib\xgboost.dll" ].
Proof.
  intros Hnt Hpre Hne Hlast.
  unfold with_name, windows_dirs, os_path_join. rewrite Hnt, Hpre.
  unfold ntpath.join. rewrite !nt_splitdrive_letter. cbn [fold_left].
  rewrite !(nt_join_step_sep (String a ":") r) by nt_side r.
  rewrite !(nt_join_step_sep (String a ":") (r +:+ "\" +:+ "Library"))
    by nt_side r.
  rewrite !(nt_join_step_sep (String a ":")
              ((r +:+ "\" +:+ "Library") +:+ "\" +:+ "mingw-w64"))
    by nt_side r.
  cbn [map]. rewrite !nt_join_letter_result, !nt_splitdrive_letter.
  rewrite !nt_join_step_sep by nt_side r.
  rewrite !nt_join_letter_result, !str_app_cons, !str_app_assoc.
  reflexivity.
Qed.

Lemma windows_candidates_drive_letter_witness :
  with_name Sample.windows "xgboost.dll" (windows_dirs Sample.windows)
  = [ "C:\conda\bin\xgboost.dll";
      "C:\conda\Library\xgboost.dll";
      "C:\conda\Library\bin\xgboost.dll";
      "C:\conda\Library\lib\xgboost.dll";
      "C:\conda\Library\mingw-w64\xgboost.dll";
      "C:\conda\Library\mingw-w64\bin\xgboost.dll";
      "C:\conda\Library\mingw-w64\lib\xgboost.dll" ].
Proof.
  apply (windows_candidates_drive_letter Sample.windows "C" "\conda"
           eq_refl eq_refl ltac:(discriminate) eq_refl).
Defined.
